(** * Verification of the PdM AI engine: decision engine and streaming connector

    Shallow embedding of [ai_api.py] ([predict_health]) and of
    [db_poll_client.py] ([FeatureEngineer], the startup and main loop of
    [poll_and_process], and its schema self-healing writes).

    Floats are modelled as exact rationals [Q]; Python exceptions are an
    explicit [Outcome] (a value, or a raised exception that propagates). *)

From Stdlib Require Import QArith Qminmax Qabs Qfield Lqa ZArith String Ascii List Bool Lia.
From Stdlib Require Import FinFun Sorted Permutation.
Import ListNotations.

Open Scope Q_scope.

(** ** Python exceptions *)

Inductive exn : Type :=
| Exn (kind : string) (msg : string).

Inductive Outcome (A : Type) : Type :=
| Ret (a : A)
| Raise (e : exn).
Arguments Ret {A} a.
Arguments Raise {A} e.

Definition bind {A B} (m : Outcome A) (k : A -> Outcome B) : Outcome B :=
  match m with
  | Ret a => k a
  | Raise e => Raise e
  end.

Notation "x <- m ;; k" := (bind m (fun x => k))
  (at level 61, m at next level, right associativity).

(** Python's comparison [a < b] on numbers, and [max(a, b)], which keeps
    its first argument unless the second is strictly greater. *)
Definition Qltb (a b : Q) : bool := negb (Qle_bool b a).

Definition pymax (a b : Q) : Q := if Qltb a b then b else a.

(** ** Python string methods on ASCII strings *)

Definition ascii_upper (c : ascii) : ascii :=
  let n := nat_of_ascii c in
  if (97 <=? n)%nat && (n <=? 122)%nat then ascii_of_nat (n - 32) else c.

(** [str.upper()] *)
Fixpoint py_upper (s : string) : string :=
  match s with
  | EmptyString => EmptyString
  | String c r => String (ascii_upper c) (py_upper r)
  end.

(** [str.isspace()] on one ASCII character: \t \n \x0b \x0c \r,
    \x1c..\x1f and the space. *)
Definition py_isspace (c : ascii) : bool :=
  let n := nat_of_ascii c in
  ((9 <=? n)%nat && (n <=? 13)%nat) || ((28 <=? n)%nat && (n <=? 32)%nat).

Fixpoint lstrip (s : string) : string :=
  match s with
  | EmptyString => EmptyString
  | String c r => if py_isspace c then lstrip r else s
  end.

Definition string_rev (s : string) : string :=
  string_of_list_ascii (rev (list_ascii_of_string s)).

(** [str.strip()] *)
Definition py_strip (s : string) : string :=
  string_rev (lstrip (string_rev (lstrip s))).

Definition py_in (s : string) (l : list string) : bool :=
  existsb (fun t => String.eqb s t) l.

(** * ai_api.py *)
Module AiApi.
Local Open Scope string_scope.

(** [class SensorData(BaseModel)] *)
Record SensorData : Type := {
  pressure : Q;
  drift : Q;
  r2 : Q;
  temp : Q;
  scan_speed : Q;
  flow : Q;             (* default 120.0 *)
  machine_state : string (* default "UNKNOWN" *)
}.

(** The row of the model's input DataFrame, in its column order:
    'Pressure(Bar)', 'Drift_Velocity', 'Confidence_R2', 'Part Temp(C)',
    'Scan Speed', 'Quench Flow(LPM)'. *)
Record Features : Type := {
  f_pressure : Q;
  f_drift_velocity : Q;
  f_confidence_r2 : Q;
  f_part_temp : Q;
  f_scan_speed : Q;
  f_quench_flow : Q
}.

(** A loaded classifier: [float(m.predict_proba(df)[0][1])] and
    [int(m.predict(df)[0])]; either call may raise. *)
Record Classifier : Type := {
  predict_proba : Features -> Outcome Q;
  predict : Features -> Outcome Z
}.

Inductive Status : Type :=
| STANDBY | OFFLINE | OPTIMAL | WARNING | CRITICAL_FAILURE.

Inductive Rca : Type :=
| NONE | EARLY_DRIFT | DRIFT_CONFIRMED.

(** The "message" strings of the response dictionaries; the f-strings keep
    the value they interpolate. *)
Inductive Message : Type :=
| MsgPaused (state : string)          (* f"AI Paused (State: {state})" *)
| MsgSensorLow                        (* "Sensor Signal Low / Machine Off" *)
| MsgNominal                          (* "System Nominal" *)
| MsgDriftDetected (d : Q)            (* f"Drift Detected: {d:.4f} bar/min" *)
| MsgEmergency                        (* "EMERGENCY: Drift Confirmed" *)
| MsgHighDrift.                       (* "High Drift - Monitoring" *)

(** A verdict dictionary; keys absent from a given return are [None]. *)
Record Verdict : Type := {
  status : Status;
  risk_score : Q;
  message : Message;
  rca : option Rca;
  drift_velocity : option Q;
  confidence : option Q
}.

(** What [predict_health] returns: a verdict, or [{"error": ...}]. *)
Inductive Response : Type :=
| RVerdict (v : Verdict)
| RError (msg : string).

Definition valid_states : list string := ["QUENCH"; "COMPLETED"].

Definition normalize_state (s : string) : string := py_strip (py_upper s).

(** Guardrail 2 of the code: the deadband. *)
Definition deadband (d : Q) : Q := if Qltb (Qabs d) 0.005 then 0 else d.

Definition features_of (data : SensorData) : Features := {|
  f_pressure := pressure data;
  f_drift_velocity := deadband (drift data);
  f_confidence_r2 := r2 data;
  f_part_temp := temp data;
  f_scan_speed := scan_speed data;
  f_quench_flow := flow data
|}.

(** Drift-based risk, from the drift after the deadband. *)
Definition drift_risk_of (drift_val : Q) : Q :=
  if Qle_bool (-0.01) drift_val then 0
  else if Qle_bool (-0.05) drift_val then (Qabs drift_val - 0.01) / 0.04 * 0.5
  else if Qle_bool (-0.1) drift_val then 0.5 + (Qabs drift_val - 0.05) / 0.05 * 0.5
  else 1.

Definition blended_risk_of (xgb_prob drift_val : Q) : Q :=
  pymax xgb_prob (drift_risk_of drift_val * 0.8 + xgb_prob * 0.2).

(** [predict_health(data)] with the two global models. *)
Definition predict_health (xgb_model rf_model : Classifier) (data : SensorData)
  : Outcome Response :=
  let current_state := normalize_state (machine_state data) in
  if negb (py_in current_state valid_states) && Qltb (pressure data) 1.0 then
    Ret (RVerdict {| status := STANDBY; risk_score := 0;
                     message := MsgPaused (machine_state data);
                     rca := None; drift_velocity := None; confidence := Some 0 |})
  else if Qltb (pressure data) 0.5 then
    Ret (RVerdict {| status := OFFLINE; risk_score := 0.99;
                     message := MsgSensorLow;
                     rca := None; drift_velocity := None; confidence := Some 0 |})
  else
    let input_df := features_of data in
    (* Step A, inside try/except Exception *)
    match (xgb_prob <- predict_proba xgb_model input_df ;;
           xgb_pred <- predict xgb_model input_df ;;
           Ret (xgb_prob, xgb_pred)) with
    | Raise (Exn _ m) => Ret (RError ("Inference Failed: " ++ m))
    | Ret (xgb_prob, _) =>
      let drift_val := f_drift_velocity input_df in
      let blended_risk := blended_risk_of xgb_prob drift_val in
      if Qltb blended_risk 0.4 then
        Ret (RVerdict {| status := OPTIMAL; risk_score := blended_risk;
                         message := MsgNominal; rca := Some NONE;
                         drift_velocity := Some drift_val; confidence := None |})
      else if Qltb blended_risk 0.8 then
        Ret (RVerdict {| status := WARNING; risk_score := blended_risk;
                         message := MsgDriftDetected drift_val; rca := Some EARLY_DRIFT;
                         drift_velocity := Some drift_val; confidence := None |})
      else
        (* Step B: the Random Forest, outside any try *)
        rf_prob <- predict_proba rf_model input_df ;;
        rf_pred <- predict rf_model input_df ;;
        if Z.eqb rf_pred 1 || Qltb 0.9 blended_risk then
          Ret (RVerdict {| status := CRITICAL_FAILURE;
                           risk_score := pymax blended_risk rf_prob;
                           message := MsgEmergency; rca := Some DRIFT_CONFIRMED;
                           drift_velocity := Some drift_val; confidence := None |})
        else
          Ret (RVerdict {| status := WARNING; risk_score := blended_risk;
                           message := MsgHighDrift; rca := Some EARLY_DRIFT;
                           drift_velocity := Some drift_val; confidence := None |})
    end.

End AiApi.

(** * db_poll_client.py *)
Module DbPollClient.
Local Open Scope string_scope.

Definition WINDOW_SIZE : nat := 20.

(** ** FeatureEngineer *)

(** [self.history = deque(maxlen=WINDOW_SIZE)], oldest first. *)
Record FeatureEngineer : Type := { history : list (Q * Q) }.

Definition empty_engineer : FeatureEngineer := {| history := [] |}.

(** [deque.append] on a bounded deque: the oldest element is dropped when
    the deque is full. *)
Definition deque_append {A} (maxlen : nat) (d : list A) (x : A) : list A :=
  let d' := app d [x] in
  if (maxlen <? length d')%nat then tl d' else d'.

Definition add_reading (fe : FeatureEngineer) (timestamp_sec pressure : Q)
  : FeatureEngineer :=
  {| history := deque_append WINDOW_SIZE (history fe) (timestamp_sec, pressure) |}.

Definition qsum (l : list Q) : Q := fold_right Qplus 0 l.

Definition qlen (l : list Q) : Q := inject_Z (Z.of_nat (length l)).

(** [np.mean] *)
Definition np_mean (l : list Q) : Q := qsum l / qlen l.

(** [np.var]: population variance, mean of squared deviations. *)
Definition np_var (l : list Q) : Q :=
  let m := np_mean l in np_mean (map (fun v => (v - m) * (v - m)) l).

(** [scipy.stats.linregress(x, y)], reduced to the two results the caller
    keeps: the slope and [r_value ** 2].  It raises a [ValueError] when all
    x values are identical.  [r ** 2] is [ssxym^2 / (ssxm * ssym)] (the
    square of [ssxym / sqrt(ssxm * ssym)]), and [r = 0] when [ssym = 0]. *)
Definition linregress (x y : list Q) : Outcome (Q * Q) :=
  let xmean := np_mean x in
  let ymean := np_mean y in
  if forallb (fun xi => Qeq_bool xi (hd 0 x)) x then
    Raise (Exn "ValueError"
             "Cannot calculate a linear regression if all x values are identical")
  else
    let ssxm := np_mean (map (fun xi => (xi - xmean) * (xi - xmean)) x) in
    let ssym := np_mean (map (fun yi => (yi - ymean) * (yi - ymean)) y) in
    let ssxym := np_mean (map (fun '(xi, yi) => (xi - xmean) * (yi - ymean))
                              (combine x y)) in
    let slope := ssxym / ssxm in
    let r2 := if Qeq_bool ssym 0 then 0 else ssxym * ssxym / (ssxm * ssym) in
    Ret (slope, r2).

(** [FeatureEngineer.calculate_features] : (drift, r2) *)
Definition calculate_features (fe : FeatureEngineer) : Q * Q :=
  let h := history fe in
  if (length h <? 5)%nat then (0, 1)
  else
    let t := map fst h in
    let y := map snd h in
    let t_rel := map (fun ti => (ti - hd 0 t) / 60) t in
    if Qltb (np_var y) 0.0001 then (0, 1)
    else match linregress t_rel y with
         | Ret (slope, r2) => (slope, r2)
         | Raise _ => (0, 0)
         end.

(** ** The telemetry store *)

(** SQLite values. *)
Inductive SqlValue : Type :=
| SqlNull
| SqlInt (z : Z)
| SqlReal (q : Q)
| SqlText (s : string).

(** One row of [telemetry]: the simulator's sensor columns, typed as the
    simulator writes them, and [extra], the values of the columns the
    connector adds ([drift_velocity], [confidence_r2], [ai_risk_score],
    [ai_status]) when they exist. *)
Record TelemetryRow : Type := {
  id : Z;
  timestamp_sim : SqlValue;
  quench_pressure : option Q;
  quench_water_temp : option Q;
  coil_scan_speed : option Q;
  state : option string;
  part_temp : option Q;
  quench_water_flow : option Q;
  extra : list (string * SqlValue)
}.

(** The table; [columns] lists the added columns that exist. *)
Record Table : Type := {
  columns : list string;
  trows : list TelemetryRow
}.

Definition OperationalError (msg : string) : exn := Exn "OperationalError" msg.

Fixpoint str_contains (sub s : string) : bool :=
  String.prefix sub s ||
  match s with
  | EmptyString => false
  | String _ r => str_contains sub r
  end.

Fixpoint assoc_get (k : string) (l : list (string * SqlValue)) : SqlValue :=
  match l with
  | [] => SqlNull
  | (k', v) :: r => if String.eqb k k' then v else assoc_get k r
  end.

Definition assoc_set (k : string) (v : SqlValue) (l : list (string * SqlValue))
  : list (string * SqlValue) :=
  (k, v) :: filter (fun '(k', _) => negb (String.eqb k k')) l.

Definition with_extra (r : TelemetryRow) (e : list (string * SqlValue)) : TelemetryRow :=
  {| id := id r; timestamp_sim := timestamp_sim r; quench_pressure := quench_pressure r;
     quench_water_temp := quench_water_temp r; coil_scan_speed := coil_scan_speed r;
     state := state r; part_temp := part_temp r; quench_water_flow := quench_water_flow r;
     extra := e |}.

(** [UPDATE telemetry SET c1 = v1, ... WHERE id = i] *)
Definition sql_update (tbl : Table) (sets : list (string * SqlValue)) (i : Z)
  : Outcome Table :=
  match find (fun '(c, _) => negb (py_in c (columns tbl))) sets with
  | Some (c, _) => Raise (OperationalError ("no such column: " ++ c))
  | None =>
    Ret {| columns := columns tbl;
           trows := map (fun r =>
                      if Z.eqb (id r) i
                      then with_extra r (fold_right (fun '(c, v) e => assoc_set c v e)
                                                    (extra r) sets)
                      else r) (trows tbl) |}
  end.

(** [ALTER TABLE telemetry ADD COLUMN c ... DEFAULT d] *)
Definition sql_add_column (tbl : Table) (c : string) (d : SqlValue) : Outcome Table :=
  if py_in c (columns tbl)
  then Raise (OperationalError ("duplicate column name: " ++ c))
  else Ret {| columns := app (columns tbl) [c];
              trows := map (fun r => with_extra r (assoc_set c d (extra r))) (trows tbl) |}.

(** [try: stmt except: pass] *)
Definition try_pass (tbl : Table) (m : Outcome Table) : Table :=
  match m with
  | Ret t => t
  | Raise _ => tbl
  end.

Definition feature_sets (drift r2 : Q) : list (string * SqlValue) :=
  [("drift_velocity", SqlReal drift); ("confidence_r2", SqlReal r2)].

(** Step B2 of the main loop: write drift/r2, adding the two columns on
    "no such column" and re-issuing the update. *)
Definition feature_write (tbl : Table) (drift r2 : Q) (i : Z) : Outcome Table :=
  match sql_update tbl (feature_sets drift r2) i with
  | Ret t => Ret t
  | Raise (Exn kind msg) =>
    if String.eqb kind "OperationalError" then
      if str_contains "no such column" msg then
        t1 <- sql_add_column tbl "drift_velocity" (SqlReal 0) ;;
        t2 <- sql_add_column t1 "confidence_r2" (SqlReal 0) ;;
        sql_update t2 (feature_sets drift r2) i
      else Ret tbl
    else Raise (Exn kind msg)
  end.

Definition verdict_sets (risk status : SqlValue) (drift r2 : Q)
  : list (string * SqlValue) :=
  [("ai_risk_score", risk); ("ai_status", status);
   ("drift_velocity", SqlReal drift); ("confidence_r2", SqlReal r2)].

(** Step E of the main loop: the unified update; on "no such column" each
    missing column is added, every [ALTER] in its own [try/except: pass]. *)
Definition verdict_write (tbl : Table) (risk status : SqlValue) (drift r2 : Q) (i : Z)
  : Outcome Table :=
  match sql_update tbl (verdict_sets risk status drift r2) i with
  | Ret t => Ret t
  | Raise (Exn kind msg) =>
    if String.eqb kind "OperationalError" then
      if str_contains "no such column" msg then
        let t1 := try_pass tbl (sql_add_column tbl "ai_risk_score" (SqlReal 0)) in
        let t2 := try_pass t1 (sql_add_column t1 "ai_status" (SqlText "UNKNOWN")) in
        let t3 := try_pass t2 (sql_add_column t2 "drift_velocity" (SqlReal 0)) in
        let t4 := try_pass t3 (sql_add_column t3 "confidence_r2" (SqlReal 0)) in
        Ret t4
      else Ret tbl
    else Raise (Exn kind msg)
  end.

(** ** parse_timestamp *)

(** [parse_timestamp(ts_value)]: numbers are taken as epoch seconds; any
    other value goes through [str(ts_value)], the [strptime] formats and the
    [time.time()] fallback, which [parse_text] stands for. *)
Definition parse_timestamp (parse_text : string -> Q) (v : SqlValue) : Q :=
  match v with
  | SqlInt z => inject_Z z
  | SqlReal q => q
  | SqlText s => parse_text s
  | SqlNull => parse_text "None"
  end.

(** [x or d] on a nullable REAL column. *)
Definition or_default (o : option Q) (d : Q) : Q :=
  match o with
  | Some q => if Qeq_bool q 0 then d else q
  | None => d
  end.

Definition or_default_str (o : option string) (d : string) : string :=
  match o with
  | Some s => if String.eqb s "" then d else s
  | None => d
  end.

(** ** Queries on the table *)

Fixpoint insert_by {A} (le : A -> A -> bool) (x : A) (l : list A) : list A :=
  match l with
  | [] => [x]
  | y :: r => if le x y then x :: l else y :: insert_by le x r
  end.

Definition sort_by {A} (le : A -> A -> bool) (l : list A) : list A :=
  fold_right (insert_by le) [] l.

(** [ORDER BY id ASC] and [ORDER BY id DESC] *)
Definition order_by_id_asc (l : list TelemetryRow) : list TelemetryRow :=
  sort_by (fun a b => Z.leb (id a) (id b)) l.

Definition order_by_id_desc (l : list TelemetryRow) : list TelemetryRow :=
  sort_by (fun a b => Z.leb (id b) (id a)) l.

(** [SELECT MAX(id) FROM ...]: [None] is SQL NULL (no row). *)
Definition sql_max_id (l : list TelemetryRow) : option Z :=
  fold_right (fun r acc => match acc with
                           | None => Some (id r)
                           | Some m => Some (Z.max (id r) m)
                           end) None l.

Definition has_verdict (r : TelemetryRow) : bool :=
  match assoc_get "ai_status" (extra r) with
  | SqlNull => false
  | _ => true
  end.

(** [row[0] if row and row[0] else 0] for
    [SELECT MAX(id) FROM telemetry WHERE ai_status IS NOT NULL]: the last
    id carrying a verdict (the resume point). *)
Definition last_verdict_id (tbl : Table) : Z :=
  match sql_max_id (filter has_verdict (trows tbl)) with
  | Some m => if Z.eqb m 0 then 0 else m
  | None => 0
  end.

(** [cur.fetchone()[0] or 0] for [SELECT MAX(id) FROM telemetry] *)
Definition newest_id (tbl : Table) : Z :=
  match sql_max_id (trows tbl) with
  | Some m => m
  | None => 0
  end.

(** ** Startup of [poll_and_process]: resume point, lag skip, warm-up *)

Definition LAG_SKIP_THRESHOLD : Z := 1000.

(** Returns [last_processed_id] and the warmed-up engineer.  When the first
    query fails ([ai_status] is not a column), the [except] prints
    "Warmup Skipped" and both keep their initial values. *)
Definition startup (parse_text : string -> Q) (tbl : Table) : Z * FeatureEngineer :=
  if negb (py_in "ai_status" (columns tbl)) then (0%Z, empty_engineer)
  else
    let last0 := last_verdict_id tbl in
    let max_id := newest_id tbl in
    let last_processed_id :=
      if Z.ltb LAG_SKIP_THRESHOLD (max_id - last0) then max_id else last0 in
    let warmup_rows :=
      firstn WINDOW_SIZE
        (order_by_id_desc (filter (fun r => Z.leb (id r) last_processed_id) (trows tbl))) in
    let eng := fold_left (fun e r => add_reading e (parse_timestamp parse_text (timestamp_sim r))
                                                  (or_default (quench_pressure r) 0))
                         (rev warmup_rows) empty_engineer in
    (last_processed_id, eng).

(** ** The main loop *)

(** The JSON payload posted to the API. *)
Record Payload : Type := {
  p_pressure : Q;
  p_drift : Q;
  p_r2 : Q;
  p_temp : Q;
  p_scan_speed : Q;
  p_flow : Q;
  p_machine_state : string
}.

(** [requests.post(API_URL, json=payload, timeout=0.5)]: the status code and
    the decoded JSON object, or a raised exception (timeout, connection
    refused, ...). *)
Definition Api : Type := Payload -> Outcome (Z * list (string * SqlValue)).

Record ConnState : Type := {
  engineer : FeatureEngineer;
  last_processed_id : Z
}.

(** The body of [for row in rows]: the ids of the rows entered, the state
    after the last one, the table written so far, and the exception that
    left the loop body, if any (it reaches the outer [except Exception]). *)
Fixpoint process_rows (api : Api) (parse_text : string -> Q) (tbl : Table)
    (st : ConnState) (rows : list TelemetryRow)
  : list Z * ConnState * Table * option exn :=
  match rows with
  | [] => ([], st, tbl, None)
  | row :: rest =>
    let ts := parse_timestamp parse_text (timestamp_sim row) in
    let pressure := or_default (quench_pressure row) 0 in
    let eng := add_reading (engineer st) ts pressure in
    let '(drift, r2) := calculate_features eng in
    match feature_write tbl drift r2 (id row) with
    | Raise e => ([id row], {| engineer := eng; last_processed_id := last_processed_id st |},
                  tbl, Some e)
    | Ret tbl1 =>
      let payload := {| p_pressure := pressure; p_drift := drift; p_r2 := r2;
                        p_temp := or_default (part_temp row) 850;
                        p_scan_speed := or_default (coil_scan_speed row) 10;
                        p_flow := or_default (quench_water_flow row) 120;
                        p_machine_state := or_default_str (state row) "UNKNOWN" |} in
      let tbl2 :=
        match api payload with
        | Ret (code, result) =>
          if Z.eqb code 200 then
            let risk := match assoc_get "risk_score" result with
                        | SqlNull => SqlReal 0 | v => v end in
            let status := match assoc_get "status" result with
                          | SqlNull => SqlText "UNKNOWN" | v => v end in
            (* exceptions of the write are caught by [except Exception] *)
            try_pass tbl1 (verdict_write tbl1 risk status drift r2 (id row))
          else tbl1
        | Raise _ => tbl1
        end in
      let st' := {| engineer := eng; last_processed_id := id row |} in
      let '(ids, st'', tbl', err) := process_rows api parse_text tbl2 st' rest in
      (id row :: ids, st'', tbl', err)
    end
  end.

(** One pass of [while True]: [snapshot] is the table as the connection
    sees it, or [None] when connecting or the [SELECT] fails.  Returns the
    ids entered and the new state. *)
Definition poll_once (api : Api) (parse_text : string -> Q) (snapshot : option Table)
    (st : ConnState) : list Z * ConnState :=
  match snapshot with
  | None => ([], st)
  | Some tbl =>
    let rows := firstn 50 (order_by_id_asc
                  (filter (fun r => Z.ltb (last_processed_id st) (id r)) (trows tbl))) in
    match rows with
    | [] => ([], st)
    | _ => let '(ids, st', _, _) := process_rows api parse_text tbl st rows in (ids, st')
    end
  end.

Fixpoint run_loop (api : Api) (parse_text : string -> Q) (snapshots : list (option Table))
    (st : ConnState) : list Z * ConnState :=
  match snapshots with
  | [] => ([], st)
  | s :: rest =>
    let '(ids, st') := poll_once api parse_text s st in
    let '(ids', st'') := run_loop api parse_text rest st' in
    (app ids ids', st'')
  end.

(** [poll_and_process()] over a run of the loop: the ids of all rows the
    main loop entered. *)
Definition poll_and_process (api : Api) (parse_text : string -> Q) (tbl0 : Table)
    (snapshots : list (option Table)) : list Z * ConnState :=
  let '(cursor, eng) := startup parse_text tbl0 in
  run_loop api parse_text snapshots {| engineer := eng; last_processed_id := cursor |}.

End DbPollClient.

(** * Concrete models and inputs *)
Module Fixtures.
Import AiApi.
Local Open Scope string_scope.

(** Constant classifiers. *)
Definition const_model (p : Q) (label : Z) : Classifier :=
  {| predict_proba := fun _ => Ret p; predict := fun _ => Ret label |}.

(** A classifier whose calls raise. *)
Definition raising_model : Classifier :=
  {| predict_proba := fun _ => Raise (Exn "XGBoostError" "model not fitted");
     predict := fun _ => Raise (Exn "XGBoostError" "model not fitted") |}.

Definition sample (p d : Q) (st : string) : SensorData :=
  {| pressure := p; drift := d; r2 := 0.95; temp := 850; scan_speed := 10;
     flow := 120; machine_state := st |}.

(** The same request with another [machine_state]. *)
Definition with_machine_state (data : SensorData) (st : string) : SensorData :=
  {| pressure := pressure data; drift := drift data; r2 := r2 data; temp := temp data;
     scan_speed := scan_speed data; flow := flow data; machine_state := st |}.

(** The verdict of the golden run (pressure 3.5, no drift, state QUENCH)
    with a primary probability of 0.02. *)
Definition golden_verdict : Verdict :=
  {| status := OPTIMAL; risk_score := pymax 0.02 (0 * 0.8 + 0.02 * 0.2);
     message := MsgNominal; rca := Some NONE; drift_velocity := Some 0;
     confidence := None |}.

End Fixtures.

(** * Concrete stores and runs of the connector *)
Module ConnectorFixtures.
Import DbPollClient.
Local Open Scope string_scope.

(** A telemetry row with a numeric timestamp and nominal sensor values. *)
Definition mk_row (i : Z) (extra_cols : list (string * SqlValue)) : TelemetryRow :=
  {| id := i; timestamp_sim := SqlReal (inject_Z i); quench_pressure := Some 3.5;
     quench_water_temp := Some 30; coil_scan_speed := Some 10; state := Some "QUENCH";
     part_temp := Some 850; quench_water_flow := Some 120; extra := extra_cols |}.

(** The value of column [c] in row [i] ([SqlNull] when absent). *)
Definition cell (tbl : Table) (i : Z) (c : string) : SqlValue :=
  match find (fun r => Z.eqb (id r) i) (trows tbl) with
  | Some r => assoc_get c (extra r)
  | None => SqlNull
  end.

(** A store on first run: none of the connector's columns exist yet. *)
Definition first_run_table : Table := {| columns := []; trows := [mk_row 7 []] |}.

(** Six readings one minute apart on the line [2 + t / 100]. *)
Definition ramp_window : FeatureEngineer :=
  {| history := map (fun i => let t := inject_Z (60 * Z.of_nat i) in (t, 2 + (1 # 100) * t))
                    (seq 0 6) |}.

(** Six readings sharing one timestamp, with a pressure ramp. *)
Definition stalled_clock_window : FeatureEngineer :=
  {| history := map (fun i => (100, 2 + inject_Z (Z.of_nat i) / 10)) (seq 0 6) |}.

(** An API that cannot be reached. *)
Definition api_down : Api :=
  fun _ => Raise (Exn "ConnectionError" "API not available").

(** A full window: 20 readings, one per second. *)
Definition full_window : FeatureEngineer :=
  {| history := map (fun i => (inject_Z (Z.of_nat i), 3.5)) (seq 0 20) |}.

(** The same store once all four connector columns exist. *)
Definition healed_table : Table :=
  {| columns := ["drift_velocity"; "confidence_r2"; "ai_risk_score"; "ai_status"];
     trows := [mk_row 7 []] |}.

(** An API that answers WARNING with risk 0.6. *)
Definition api_warning : Api :=
  fun _ => Ret (200%Z, [("status", SqlText "WARNING"); ("risk_score", SqlReal 0.6)]).

Definition parse_text0 : string -> Q := fun _ => 0.

Definition cold_state : ConnState :=
  {| engineer := empty_engineer; last_processed_id := 0 |}.

(** [n] rows with ids 1..n, without verdicts. *)
Definition plain_rows (n : nat) : list TelemetryRow :=
  map (fun k => mk_row (Z.of_nat k) []) (seq 1 n).

(** A healed store whose 60 rows are stored newest first. *)
Definition shuffled_backlog : Table :=
  {| columns := ["drift_velocity"; "confidence_r2"; "ai_risk_score"; "ai_status"];
     trows := rev (plain_rows 60) |}.

(** A first-run store with a backlog of 1001 rows and no [ai_status]
    column. *)
Definition backlog_no_verdict_column : Table :=
  {| columns := []; trows := plain_rows 1001 |}.

(** A migrated store: row 1 carries a verdict, rows 2..1002 do not. *)
Definition backlog_with_verdicts : Table :=
  {| columns := ["drift_velocity"; "confidence_r2"; "ai_risk_score"; "ai_status"];
     trows := mk_row 1 [("ai_status", SqlText "OPTIMAL")]
              :: map (fun k => mk_row (Z.of_nat k) [("ai_status", SqlNull)]) (seq 2 1001) |}.

(** A migrated store with a verdict at id 3 and two more rows. *)
Definition resumable_table : Table :=
  {| columns := ["drift_velocity"; "confidence_r2"; "ai_risk_score"; "ai_status"];
     trows := [mk_row 1 [("ai_status", SqlText "OPTIMAL")];
               mk_row 2 [("ai_status", SqlText "OPTIMAL")];
               mk_row 3 [("ai_status", SqlText "WARNING")];
               mk_row 4 [("ai_status", SqlNull)];
               mk_row 5 [("ai_status", SqlNull)]] |}.

(** A window of six equal pressures. *)
Definition flat_window : FeatureEngineer :=
  {| history := map (fun k => (inject_Z (Z.of_nat k), 3.5)) (seq 0 6) |}.

End ConnectorFixtures.

(** * Comparisons and [max] on rationals *)
Module QFacts.

Lemma Qltb_true (a b : Q) : Qltb a b = true <-> a < b.
Proof.
  unfold Qltb. rewrite negb_true_iff.
  split; intro H.
  - apply Qnot_le_lt. intro H'. apply Qle_bool_iff in H'. congruence.
  - destruct (Qle_bool b a) eqn:E; [|reflexivity].
    apply Qle_bool_iff in E. exfalso. apply (Qlt_not_le a b); assumption.
Qed.

Lemma Qltb_false (a b : Q) : Qltb a b = false <-> b <= a.
Proof.
  unfold Qltb. rewrite negb_false_iff. apply Qle_bool_iff.
Qed.

Lemma pymax_Qmax (a b : Q) : pymax a b == Qmax a b.
Proof.
  unfold pymax. destruct (Qltb a b) eqn:E.
  - apply Qltb_true in E. rewrite Q.max_r; [reflexivity | apply Qlt_le_weak; exact E].
  - apply Qltb_false in E. rewrite Q.max_l; [reflexivity | exact E].
Qed.

Lemma Qle_bool_false (a b : Q) : Qle_bool a b = false -> b < a.
Proof.
  intro E. apply Qnot_le_lt. intro H. apply Qle_bool_iff in H. congruence.
Qed.

(** Case split on a test [a <= b] of the code. *)
Ltac qcase a b :=
  let E := fresh "E" in
  destruct (Qle_bool a b) eqn:E;
  [apply Qle_bool_iff in E | apply Qle_bool_false in E].

End QFacts.

(** * Properties of the decision engine *)
Module DecisionEngineFacts.
Import AiApi Fixtures QFacts.
Local Open Scope string_scope.

Example golden_run :
  match predict_health (const_model 0.02 0) (const_model 0.1 0) (sample 3.5 0 "QUENCH") with
  | Ret (RVerdict v) => status v = OPTIMAL
  | _ => False
  end.
Proof. vm_compute. reflexivity. Qed.

Example standby_run :
  match predict_health (const_model 0.02 0) (const_model 0.1 0) (sample 0.3 0 " heating ") with
  | Ret (RVerdict v) => status v = STANDBY
  | _ => False
  end.
Proof. vm_compute. reflexivity. Qed.

Example normalized_quench : normalize_state "  quench  " = "QUENCH".
Proof. reflexivity. Qed.

(** Past both guardrails, [predict_health] is its inference part. *)
Lemma predict_health_running (xgb rf : Classifier) (data : SensorData) :
  (py_in (normalize_state (machine_state data)) valid_states = true \/ 1 <= pressure data) ->
  0.5 <= pressure data ->
  predict_health xgb rf data =
    let input_df := features_of data in
    match (xgb_prob <- predict_proba xgb input_df ;;
           xgb_pred <- predict xgb input_df ;;
           Ret (xgb_prob, xgb_pred)) with
    | Raise (Exn _ m) => Ret (RError ("Inference Failed: " ++ m))
    | Ret (xgb_prob, _) =>
      let drift_val := f_drift_velocity input_df in
      let blended_risk := blended_risk_of xgb_prob drift_val in
      if Qltb blended_risk 0.4 then
        Ret (RVerdict {| status := OPTIMAL; risk_score := blended_risk;
                         message := MsgNominal; rca := Some NONE;
                         drift_velocity := Some drift_val; confidence := None |})
      else if Qltb blended_risk 0.8 then
        Ret (RVerdict {| status := WARNING; risk_score := blended_risk;
                         message := MsgDriftDetected drift_val; rca := Some EARLY_DRIFT;
                         drift_velocity := Some drift_val; confidence := None |})
      else
        rf_prob <- predict_proba rf input_df ;;
        rf_pred <- predict rf input_df ;;
        if Z.eqb rf_pred 1 || Qltb 0.9 blended_risk then
          Ret (RVerdict {| status := CRITICAL_FAILURE;
                           risk_score := pymax blended_risk rf_prob;
                           message := MsgEmergency; rca := Some DRIFT_CONFIRMED;
                           drift_velocity := Some drift_val; confidence := None |})
        else
          Ret (RVerdict {| status := WARNING; risk_score := blended_risk;
                           message := MsgHighDrift; rca := Some EARLY_DRIFT;
                           drift_velocity := Some drift_val; confidence := None |})
    end.
Proof.
  intros Hgate Hon. unfold predict_health. cbv zeta.
  assert (E1 : negb (py_in (normalize_state (machine_state data)) valid_states)
               && Qltb (pressure data) 1.0 = false).
  { destruct Hgate as [H | H].
    - rewrite H. reflexivity.
    - apply andb_false_intro2. apply Qltb_false.
      apply Qle_trans with 1; [apply Qle_bool_iff; reflexivity | exact H]. }
  rewrite E1.
  assert (E2 : Qltb (pressure data) 0.5 = false) by (apply Qltb_false; exact Hon).
  rewrite E2. reflexivity.
Qed.

(** C1. Past both guardrails, with the models answering, the verdict is
    banded on the blended risk [b]: [b < 0.4] gives OPTIMAL (rca NONE, risk
    [b]); [0.4 <= b < 0.8] gives WARNING (rca EARLY_DRIFT, risk [b]); for
    [b >= 0.8] the secondary model is consulted, and the verdict is
    CRITICAL_FAILURE (rca DRIFT_CONFIRMED, risk [max(b, rf_prob)]) exactly
    when it predicts failure or [b > 0.9], and WARNING (rca EARLY_DRIFT,
    risk [b]) otherwise. *)
Theorem predict_health_bands (xgb rf : Classifier) (data : SensorData)
    (xgb_prob : Q) (xgb_pred : Z)
    (Hgate : py_in (normalize_state (machine_state data)) valid_states = true
             \/ 1 <= pressure data)
    (Hon : 0.5 <= pressure data)
    (Hprob : predict_proba xgb (features_of data) = Ret xgb_prob)
    (Hpred : predict xgb (features_of data) = Ret xgb_pred) :
  let b := blended_risk_of xgb_prob (deadband (drift data)) in
  (b < 0.4 ->
     exists v, predict_health xgb rf data = Ret (RVerdict v) /\
       status v = OPTIMAL /\ rca v = Some NONE /\ risk_score v == b) /\
  (0.4 <= b < 0.8 ->
     exists v, predict_health xgb rf data = Ret (RVerdict v) /\
       status v = WARNING /\ rca v = Some EARLY_DRIFT /\ risk_score v == b) /\
  (0.8 <= b -> forall (rf_prob : Q) (rf_pred : Z),
     predict_proba rf (features_of data) = Ret rf_prob ->
     predict rf (features_of data) = Ret rf_pred ->
     exists v, predict_health xgb rf data = Ret (RVerdict v) /\
       ((rf_pred = 1%Z \/ 0.9 < b) ->
          status v = CRITICAL_FAILURE /\ rca v = Some DRIFT_CONFIRMED /\
          risk_score v == Qmax b rf_prob) /\
       (~ (rf_pred = 1%Z \/ 0.9 < b) ->
          status v = WARNING /\ rca v = Some EARLY_DRIFT /\ risk_score v == b)).
Proof.
  cbv zeta. rewrite (predict_health_running xgb rf data Hgate Hon). cbv zeta.
  rewrite Hprob. cbn [bind]. rewrite Hpred. cbn [bind f_drift_velocity features_of].
  set (b := blended_risk_of xgb_prob (deadband (drift data))).
  split; [|split].
  - intro Hb. apply Qltb_true in Hb. rewrite Hb.
    eexists; split; [reflexivity|]. repeat split; reflexivity.
  - intros [Hb1 Hb2]. apply Qltb_false in Hb1. apply Qltb_true in Hb2.
    rewrite Hb1, Hb2. eexists; split; [reflexivity|]. repeat split; reflexivity.
  - intros Hb rf_prob rf_pred Hrp Hrl.
    assert (E1 : Qltb b 0.4 = false) by (apply Qltb_false; apply Qle_trans with 0.8;
                                         [apply Qle_bool_iff; reflexivity | exact Hb]).
    assert (E2 : Qltb b 0.8 = false) by (apply Qltb_false; exact Hb).
    rewrite E1, E2, Hrp. cbn [bind]. rewrite Hrl. cbn [bind].
    destruct (Z.eqb rf_pred 1 || Qltb 0.9 b) eqn:E3.
    + eexists; split; [reflexivity|]. split.
      * intros _. repeat split. apply pymax_Qmax.
      * intro Hn. exfalso. apply Hn. apply orb_true_iff in E3.
        destruct E3 as [E3 | E3]; [left; apply Z.eqb_eq; exact E3 |
                                   right; apply Qltb_true; exact E3].
    + eexists; split; [reflexivity|]. split.
      * intro H. exfalso. apply orb_false_iff in E3. destruct E3 as [E3 E4].
        destruct H as [H | H].
        -- apply Z.eqb_neq in E3. contradiction.
        -- apply Qltb_true in H. congruence.
      * intros _. repeat split; reflexivity.
Qed.

(** Witness of [predict_health_bands]: a calm request in state QUENCH. *)
Lemma predict_health_bands_witness :
  let b := blended_risk_of 0.02 (deadband 0) in
  (b < 0.4 ->
     exists v, predict_health (const_model 0.02 0) (const_model 0.1 0)
                              (sample 3.5 0 "QUENCH") = Ret (RVerdict v) /\
       status v = OPTIMAL /\ rca v = Some NONE /\ risk_score v == b) /\
  (0.4 <= b < 0.8 ->
     exists v, predict_health (const_model 0.02 0) (const_model 0.1 0)
                              (sample 3.5 0 "QUENCH") = Ret (RVerdict v) /\
       status v = WARNING /\ rca v = Some EARLY_DRIFT /\ risk_score v == b) /\
  (0.8 <= b -> forall (rf_prob : Q) (rf_pred : Z),
     predict_proba (const_model 0.1 0) (features_of (sample 3.5 0 "QUENCH")) = Ret rf_prob ->
     predict (const_model 0.1 0) (features_of (sample 3.5 0 "QUENCH")) = Ret rf_pred ->
     exists v, predict_health (const_model 0.02 0) (const_model 0.1 0)
                              (sample 3.5 0 "QUENCH") = Ret (RVerdict v) /\
       ((rf_pred = 1%Z \/ 0.9 < b) ->
          status v = CRITICAL_FAILURE /\ rca v = Some DRIFT_CONFIRMED /\
          risk_score v == Qmax b rf_prob) /\
       (~ (rf_pred = 1%Z \/ 0.9 < b) ->
          status v = WARNING /\ rca v = Some EARLY_DRIFT /\ risk_score v == b)).
Proof.
  exact (predict_health_bands (const_model 0.02 0) (const_model 0.1 0)
           (sample 3.5 0 "QUENCH") 0.02 0 (or_introl eq_refl)
           (proj1 (Qle_bool_iff 0.5 3.5) eq_refl) eq_refl eq_refl).
Defined.

(** C10. Every verdict that carries a [drift_velocity] field reports the
    drift after the deadband, which is [0] whenever [|drift| < 0.005]. *)
Theorem verdict_reports_deadband_drift (xgb rf : Classifier) (data : SensorData)
    (v : Verdict) (d : Q)
    (Hres : predict_health xgb rf data = Ret (RVerdict v))
    (Hd : drift_velocity v = Some d) :
  d = deadband (drift data) /\ (Qabs (drift data) < 0.005 -> d = 0).
Proof.
  assert (Hdv : d = deadband (drift data)).
  { revert Hres. unfold predict_health. cbv zeta.
    destruct (negb _ && _); [intro H; inversion H; subst; discriminate|].
    destruct (Qltb (pressure data) 0.5); [intro H; inversion H; subst; discriminate|].
    destruct (bind _ _) as [[xp xl]|[k m]]; [|discriminate].
    cbn [f_drift_velocity features_of].
    destruct (Qltb _ 0.4); [intro H; inversion H; subst; inversion Hd; reflexivity|].
    destruct (Qltb _ 0.8); [intro H; inversion H; subst; inversion Hd; reflexivity|].
    destruct (predict_proba rf _); cbn [bind]; [|discriminate].
    destruct (predict rf _); cbn [bind]; [|discriminate].
    destruct (_ || _); intro H; inversion H; subst; inversion Hd; reflexivity. }
  split; [exact Hdv|].
  intro Hsmall. rewrite Hdv. unfold deadband.
  apply Qltb_true in Hsmall. rewrite Hsmall. reflexivity.
Qed.

(** Witness of [verdict_reports_deadband_drift]: a jittery drift of 0.003. *)
Lemma verdict_reports_deadband_drift_witness :
  0 = deadband (drift (sample 3.5 0.003 "QUENCH")) /\
  (Qabs (drift (sample 3.5 0.003 "QUENCH")) < 0.005 -> (0:Q) = 0).
Proof.
  apply (verdict_reports_deadband_drift (const_model 0.02 0) (const_model 0.1 0)
           (sample 3.5 0.003 "QUENCH")
           {| status := OPTIMAL; risk_score := pymax 0.02 (0 * 0.8 + 0.02 * 0.2);
              message := MsgNominal; rca := Some NONE; drift_velocity := Some 0;
              confidence := None |} 0).
  - vm_compute. reflexivity.
  - reflexivity.
Defined.

(** C2, as claimed, fails: a request with pressure 0.2 and the default
    state "UNKNOWN" is not reported OFFLINE (guardrail 1 answers STANDBY
    first). *)
Lemma offline_regardless_of_state_fails :
  ~ (forall (xgb rf : Classifier) (data : SensorData), pressure data = 0.2 ->
       exists v, predict_health xgb rf data = Ret (RVerdict v) /\
                 status v = OFFLINE /\ confidence v = Some 0).
Proof.
  intro H.
  destruct (H (const_model 0.02 0) (const_model 0.1 0) (sample 0.2 0 "UNKNOWN") eq_refl)
    as [v [Hv [Hs _]]].
  vm_compute in Hv. inversion Hv. subst. discriminate.
Qed.

(** C2 (amended). A request with raw pressure below 0.5 is OFFLINE with
    risk 0.99 and confidence 0.0, whatever its other fields, when its
    normalized state is an active state (QUENCH, COMPLETED); with any other
    state it is STANDBY with risk 0.0 (guardrail 1 runs first). *)
Theorem low_pressure_verdict (xgb rf : Classifier) (data : SensorData)
    (Hlow : pressure data < 0.5) :
  (py_in (normalize_state (machine_state data)) valid_states = true ->
     predict_health xgb rf data =
       Ret (RVerdict {| status := OFFLINE; risk_score := 0.99; message := MsgSensorLow;
                        rca := None; drift_velocity := None; confidence := Some 0 |})) /\
  (py_in (normalize_state (machine_state data)) valid_states = false ->
     predict_health xgb rf data =
       Ret (RVerdict {| status := STANDBY; risk_score := 0;
                        message := MsgPaused (machine_state data);
                        rca := None; drift_velocity := None; confidence := Some 0 |})).
Proof.
  assert (E05 : Qltb (pressure data) 0.5 = true) by (apply Qltb_true; exact Hlow).
  assert (E1 : Qltb (pressure data) 1.0 = true).
  { apply Qltb_true. apply Qlt_le_trans with 0.5; [exact Hlow|].
    apply Qle_bool_iff; reflexivity. }
  unfold predict_health; cbv zeta. split; intro Hin; rewrite Hin.
  - cbn [negb andb]. rewrite E05. reflexivity.
  - cbn [negb andb]. rewrite E1. reflexivity.
Qed.

(** Witness of [low_pressure_verdict]: scenario C in state QUENCH. *)
Lemma low_pressure_verdict_witness :
  (py_in (normalize_state (machine_state (sample 0.2 0 "QUENCH"))) valid_states = true ->
     predict_health (const_model 0.02 0) (const_model 0.1 0) (sample 0.2 0 "QUENCH") =
       Ret (RVerdict {| status := OFFLINE; risk_score := 0.99; message := MsgSensorLow;
                        rca := None; drift_velocity := None; confidence := Some 0 |})) /\
  (py_in (normalize_state (machine_state (sample 0.2 0 "QUENCH"))) valid_states = false ->
     predict_health (const_model 0.02 0) (const_model 0.1 0) (sample 0.2 0 "QUENCH") =
       Ret (RVerdict {| status := STANDBY; risk_score := 0;
                        message := MsgPaused (machine_state (sample 0.2 0 "QUENCH"));
                        rca := None; drift_velocity := None; confidence := Some 0 |})).
Proof.
  apply low_pressure_verdict. apply Qltb_true. reflexivity.
Defined.

(** C6. With a normalized state outside the active states, a pressure
    below 1.0 gives STANDBY with risk 0.0; a pressure of at least 1.0
    bypasses the gate: the verdict is the one for state QUENCH. *)
Theorem context_gate (xgb rf : Classifier) (data : SensorData)
    (Hout : py_in (normalize_state (machine_state data)) valid_states = false) :
  (pressure data < 1 ->
     exists v, predict_health xgb rf data = Ret (RVerdict v) /\
               status v = STANDBY /\ risk_score v == 0) /\
  (1 <= pressure data ->
     predict_health xgb rf data =
     predict_health xgb rf (with_machine_state data "QUENCH")).
Proof.
  split.
  - intro Hlt. unfold predict_health. cbv zeta. rewrite Hout. cbn [negb andb].
    assert (E1 : Qltb (pressure data) 1.0 = true).
    { apply Qltb_true. apply Qlt_le_trans with 1; [exact Hlt|].
      apply Qle_bool_iff; reflexivity. }
    rewrite E1. eexists; split; [reflexivity|]. split; reflexivity.
  - intro Hge.
    assert (Hon : 0.5 <= pressure data).
    { apply Qle_trans with 1; [apply Qle_bool_iff; reflexivity | exact Hge]. }
    rewrite (predict_health_running xgb rf data (or_intror Hge) Hon).
    rewrite (predict_health_running xgb rf (with_machine_state data "QUENCH")
               (or_introl eq_refl) Hon).
    reflexivity.
Qed.

(** Witness of [context_gate]: state " heating " at pressure 0.3. *)
Lemma context_gate_witness :
  (pressure (sample 0.3 0 " heating ") < 1 ->
     exists v, predict_health (const_model 0.02 0) (const_model 0.1 0)
                              (sample 0.3 0 " heating ") = Ret (RVerdict v) /\
               status v = STANDBY /\ risk_score v == 0) /\
  (1 <= pressure (sample 0.3 0 " heating ") ->
     predict_health (const_model 0.02 0) (const_model 0.1 0) (sample 0.3 0 " heating ") =
     predict_health (const_model 0.02 0) (const_model 0.1 0)
                    (with_machine_state (sample 0.3 0 " heating ") "QUENCH")).
Proof.
  apply context_gate. reflexivity.
Defined.

(** C3 (code bug). A failure of the secondary model is not caught: on a
    request escalated to it, [predict_health] raises instead of returning
    an error result, while the same failure of the primary model gives
    [{"error": "Inference Failed: ..."}]. *)
Theorem secondary_model_failure_raises :
  predict_health (const_model 0.1 0) raising_model (sample 3.5 (-0.2) "QUENCH")
    = Raise (Exn "XGBoostError" "model not fitted") /\
  predict_health raising_model (const_model 0.1 0) (sample 3.5 (-0.2) "QUENCH")
    = Ret (RError "Inference Failed: model not fitted").
Proof. split; vm_compute; reflexivity. Qed.

(** ** The drift risk curve *)

(** C4. The drift risk is 0 for [d >= -0.01], the line from 0 (at -0.01)
    to 0.5 (at -0.05) on [-0.05, -0.01), the line from 0.5 (at -0.05) to
    1.0 (at -0.10) on [-0.10, -0.05), and 1.0 below -0.10; it is computed
    on the drift after the deadband, and the blended risk is
    [max(p, 0.8 * drift_risk + 0.2 * p)]. *)
Theorem drift_risk_curve (p : Q) (data : SensorData) :
  let d := f_drift_velocity (features_of data) in
  d = deadband (drift data) /\
  (-0.01 <= d -> drift_risk_of d == 0) /\
  (-0.05 <= d < -0.01 -> drift_risk_of d == 0.5 * ((-0.01 - d) / 0.04)) /\
  (-0.1 <= d < -0.05 -> drift_risk_of d == 0.5 + 0.5 * ((-0.05 - d) / 0.05)) /\
  (d < -0.1 -> drift_risk_of d == 1) /\
  blended_risk_of p d == Qmax p (0.8 * drift_risk_of d + 0.2 * p).
Proof.
  cbv zeta. set (d := f_drift_velocity (features_of data)).
  split; [reflexivity|].
  unfold drift_risk_of.
  split; [|split; [|split; [|split]]].
  - intro H. apply Qle_bool_iff in H. rewrite H. reflexivity.
  - intros [H1 H2].
    assert (E1 : Qle_bool (-0.01) d = false).
    { destruct (Qle_bool (-0.01) d) eqn:E; [|reflexivity].
      apply Qle_bool_iff in E. exfalso. apply (Qlt_not_le d (-0.01)); assumption. }
    apply Qle_bool_iff in H1. rewrite E1, H1.
    assert (Ha : Qabs d == - d) by (apply Qabs_neg; lra).
    rewrite Ha. field.
  - intros [H1 H2].
    assert (E1 : Qle_bool (-0.01) d = false).
    { destruct (Qle_bool (-0.01) d) eqn:E; [|reflexivity].
      apply Qle_bool_iff in E. exfalso. lra. }
    assert (E2 : Qle_bool (-0.05) d = false).
    { destruct (Qle_bool (-0.05) d) eqn:E; [|reflexivity].
      apply Qle_bool_iff in E. exfalso. lra. }
    apply Qle_bool_iff in H1. rewrite E1, E2, H1.
    assert (Ha : Qabs d == - d) by (apply Qabs_neg; lra).
    rewrite Ha. field.
  - intro H.
    assert (E1 : Qle_bool (-0.01) d = false).
    { destruct (Qle_bool (-0.01) d) eqn:E; [|reflexivity].
      apply Qle_bool_iff in E. exfalso. lra. }
    assert (E2 : Qle_bool (-0.05) d = false).
    { destruct (Qle_bool (-0.05) d) eqn:E; [|reflexivity].
      apply Qle_bool_iff in E. exfalso. lra. }
    assert (E3 : Qle_bool (-0.1) d = false).
    { destruct (Qle_bool (-0.1) d) eqn:E; [|reflexivity].
      apply Qle_bool_iff in E. exfalso. lra. }
    rewrite E1, E2, E3. reflexivity.
  - unfold blended_risk_of. rewrite pymax_Qmax.
    assert (Hr : drift_risk_of d * 0.8 + p * 0.2 == 0.8 * drift_risk_of d + 0.2 * p) by ring.
    rewrite Hr. reflexivity.
Qed.

(** The four pieces of the drift risk curve. *)
Lemma drift_risk_cases (d : Q) :
  (-0.01 <= d /\ drift_risk_of d == 0) \/
  (-0.05 <= d < -0.01 /\ drift_risk_of d == 12.5 * (-0.01 - d)) \/
  (-0.1 <= d < -0.05 /\ drift_risk_of d == 0.5 + 10 * (-0.05 - d)) \/
  (d < -0.1 /\ drift_risk_of d == 1).
Proof.
  unfold drift_risk_of.
  qcase (-0.01) d; [left; split; [assumption | reflexivity]|].
  qcase (-0.05) d.
  - right; left. split; [split; assumption|].
    assert (Ha : Qabs d == - d) by (apply Qabs_neg; lra).
    rewrite Ha. field.
  - qcase (-0.1) d.
    + right; right; left. split; [split; assumption|].
      assert (Ha : Qabs d == - d) by (apply Qabs_neg; lra).
      rewrite Ha. field.
    + right; right; right. split; [assumption | reflexivity].
Qed.

Lemma drift_risk_antitone (d1 d2 : Q) : d1 <= d2 -> drift_risk_of d2 <= drift_risk_of d1.
Proof.
  intro Hle.
  destruct (drift_risk_cases d1) as [[A1 B1]|[[A1 B1]|[[A1 B1]|[A1 B1]]]];
  destruct (drift_risk_cases d2) as [[A2 B2]|[[A2 B2]|[[A2 B2]|[A2 B2]]]];
  rewrite B1, B2; lra.
Qed.

(** Inside the deadband the drift is above -0.01, where the risk is 0
    anyway: the deadband does not change the drift risk. *)
Lemma drift_risk_deadband (d : Q) : drift_risk_of (deadband d) == drift_risk_of d.
Proof.
  unfold deadband. destruct (Qltb (Qabs d) 0.005) eqn:E; [|reflexivity].
  apply Qltb_true in E.
  assert (Hd : - d <= Qabs d).
  { rewrite <- Qabs_opp. apply Qle_Qabs. }
  assert (Hd' : -0.01 <= d) by lra.
  destruct (drift_risk_cases d) as [[A B]|[[A B]|[[A B]|[A B]]]];
    [| lra | lra | lra].
  rewrite B. reflexivity.
Qed.

(** C5. With the primary probability fixed, a smaller (more negative)
    drift never gives a smaller blended risk. *)
Theorem blended_risk_monotone (xgb_prob : Q) (data1 data2 : SensorData)
    (Hle : drift data1 <= drift data2) :
  blended_risk_of xgb_prob (f_drift_velocity (features_of data2))
  <= blended_risk_of xgb_prob (f_drift_velocity (features_of data1)).
Proof.
  cbn [f_drift_velocity features_of]. unfold blended_risk_of.
  rewrite !pymax_Qmax. apply Q.max_le_compat_l.
  rewrite !drift_risk_deadband.
  pose proof (drift_risk_antitone _ _ Hle). lra.
Qed.

(** Witness of [blended_risk_monotone]: drifts -0.08 and -0.02. *)
Lemma blended_risk_monotone_witness :
  blended_risk_of 0.1 (f_drift_velocity (features_of (sample 3.2 (-0.02) "QUENCH")))
  <= blended_risk_of 0.1 (f_drift_velocity (features_of (sample 3.2 (-0.08) "QUENCH"))).
Proof.
  apply blended_risk_monotone. apply Qle_bool_iff. reflexivity.
Defined.

End DecisionEngineFacts.

(** * Properties of the streaming connector *)
Module ConnectorFacts.
Import DbPollClient ConnectorFixtures QFacts.
Local Open Scope string_scope.

(** ** Feature engineer *)

Lemma qlen_cons (a : Q) (l : list Q) : qlen (a :: l) == qlen l + 1.
Proof.
  unfold qlen. cbn [length]. rewrite Nat2Z.inj_succ, <- Z.add_1_r, inject_Z_plus.
  reflexivity.
Qed.

Lemma qlen_nonneg (l : list Q) : 0 <= qlen l.
Proof.
  unfold qlen. change 0 with (inject_Z 0). rewrite <- Zle_Qle. lia.
Qed.

Lemma qsum_const (c : Q) (l : list Q) :
  Forall (fun y => y == c) l -> qsum l == qlen l * c.
Proof.
  induction 1 as [|a l Ha _ IH].
  - reflexivity.
  - cbn [qsum fold_right]. fold (qsum l). rewrite IH, qlen_cons, Ha. ring.
Qed.

Lemma np_mean_const (c : Q) (l : list Q) :
  l <> [] -> Forall (fun y => y == c) l -> np_mean l == c.
Proof.
  intros Hne Hc. unfold np_mean. rewrite (qsum_const c l Hc).
  assert (Hpos : ~ qlen l == 0).
  { destruct l as [|a l]; [congruence|]. rewrite qlen_cons.
    pose proof (qlen_nonneg l). intro Hz. lra. }
  field. exact Hpos.
Qed.

(** The variance of equal values is 0. *)
Lemma np_var_const (c : Q) (l : list Q) :
  Forall (fun y => y == c) l -> np_var l == 0.
Proof.
  intro Hc. destruct l as [|a l'] eqn:El; [reflexivity|].
  rewrite <- El in *. unfold np_var.
  assert (Hm : np_mean l == c) by (apply np_mean_const; [rewrite El; discriminate | exact Hc]).
  assert (Hz : Forall (fun y => y == 0) (map (fun v => (v - np_mean l) * (v - np_mean l)) l)).
  { apply Forall_map. apply Forall_impl with (2 := Hc). intros y Hy.
    rewrite Hy, Hm. ring. }
  unfold np_mean at 1. rewrite (qsum_const 0 _ Hz).
  unfold Qdiv. ring.
Qed.

(** C7. [calculate_features] returns the safe default [(0.0, 1.0)] when
    the window holds fewer than 5 readings, when the variance of its
    pressures is below 0.0001, and in particular when all its pressures are
    equal, whatever its length. *)
Theorem calculate_features_safe_default (fe : FeatureEngineer)
    (H : (length (history fe) < 5)%nat
         \/ np_var (map snd (history fe)) < 0.0001
         \/ (exists c, Forall (fun y => y == c) (map snd (history fe)))) :
  calculate_features fe = (0, 1).
Proof.
  unfold calculate_features. cbv zeta.
  destruct (length (history fe) <? 5)%nat eqn:Elen; [reflexivity|].
  assert (Hv : np_var (map snd (history fe)) < 0.0001).
  { destruct H as [H | [H | [c Hc]]].
    - apply Nat.ltb_lt in H. congruence.
    - exact H.
    - rewrite (np_var_const c _ Hc). reflexivity. }
  apply Qltb_true in Hv. rewrite Hv. reflexivity.
Qed.

(** Witness of [calculate_features_safe_default]: six equal pressures. *)
Lemma calculate_features_safe_default_witness : calculate_features flat_window = (0, 1).
Proof.
  apply calculate_features_safe_default. right; right. exists 3.5.
  vm_compute. repeat constructor.
Defined.

(** ** Schema self-healing *)

(** C8 (code bug). On a first-run store, the feature write adds its two
    columns and re-issues the update, so [confidence_r2] holds the computed
    1.0; the verdict write adds [ai_risk_score] and [ai_status] but never
    re-issues its update, so the row keeps the column defaults 0 and
    'UNKNOWN' instead of the API's 0.6 and 'WARNING'.  The loop goes on. *)
Theorem verdict_write_not_retried :
  let '(ids, st, tbl', err) :=
    process_rows api_warning parse_text0 first_run_table cold_state [mk_row 7 []] in
  ids = [7%Z] /\ err = None /\ last_processed_id st = 7%Z /\
  cell tbl' 7 "confidence_r2" = SqlReal 1 /\
  cell tbl' 7 "ai_risk_score" = SqlReal 0 /\
  cell tbl' 7 "ai_status" = SqlText "UNKNOWN".
Proof. vm_compute. repeat split. Qed.

(** ** Startup and the cursor *)

Lemma sql_max_id_upper (l : list TelemetryRow) (r : TelemetryRow) :
  In r l -> exists m, sql_max_id l = Some m /\ (id r <= m)%Z.
Proof.
  induction l as [|a l IH]; [contradiction|].
  intros [-> | Hin]; cbn [sql_max_id fold_right]; fold (sql_max_id l).
  - destruct (sql_max_id l); eexists; split; try reflexivity; lia.
  - destruct (IH Hin) as [m [Hm Hle]]. rewrite Hm. eexists; split; [reflexivity | lia].
Qed.

Lemma newest_id_upper (tbl : Table) (r : TelemetryRow) :
  In r (trows tbl) -> (id r <= newest_id tbl)%Z.
Proof.
  intro Hin. destruct (sql_max_id_upper _ _ Hin) as [m [Hm Hle]].
  unfold newest_id. rewrite Hm. exact Hle.
Qed.

(** Distinct integers in [(a, b]] are at most [b - a]. *)
Lemma nodup_interval_length (l : list Z) (a b : Z) :
  NoDup l -> (forall x, In x l -> a < x <= b)%Z ->
  (Z.of_nat (length l) <= Z.max 0 (b - a))%Z.
Proof.
  intros Hnd Hin.
  destruct (Z_le_gt_dec a b) as [Hab | Hab].
  2: { destruct l as [|x l]; [cbn; lia|]. specialize (Hin x (or_introl eq_refl)). lia. }
  rewrite Z.max_r by lia.
  set (iv := map (fun k => a + 1 + Z.of_nat k)%Z (seq 0 (Z.to_nat (b - a)))).
  assert (Hincl : incl l iv).
  { intros x Hx. specialize (Hin x Hx). unfold iv. apply in_map_iff.
    exists (Z.to_nat (x - a - 1)). split; [lia|].
    apply in_seq. lia. }
  pose proof (NoDup_incl_length Hnd Hincl) as Hlen.
  unfold iv in Hlen. rewrite length_map, length_seq in Hlen. lia.
Qed.

(** A backlog of more than 1000 rows past the resume point makes the
    id gap exceed 1000. *)
Lemma backlog_gap (tbl : Table) :
  NoDup (map id (trows tbl)) ->
  (Z.of_nat (length (filter (fun r => Z.ltb (last_verdict_id tbl) (id r)) (trows tbl)))
     <= Z.max 0 (newest_id tbl - last_verdict_id tbl))%Z.
Proof.
  intro Hnd.
  rewrite <- (length_map id).
  rewrite <- filter_map_swap.
  apply nodup_interval_length; [apply NoDup_filter; exact Hnd|].
  intros x Hx. apply filter_In in Hx. destruct Hx as [Hx Hlt].
  apply Z.ltb_lt in Hlt. apply in_map_iff in Hx. destruct Hx as [r [<- Hr]].
  split; [exact Hlt | apply newest_id_upper; exact Hr].
Qed.

Lemma in_firstn {A} (n : nat) (x : A) (l : list A) : In x (firstn n l) -> In x l.
Proof.
  intro H. rewrite <- (firstn_skipn n l). apply in_or_app. left; exact H.
Qed.

Lemma in_insert_by {A} (le : A -> A -> bool) (a x : A) (l : list A) :
  In x (insert_by le a l) -> x = a \/ In x l.
Proof.
  induction l as [|y l IH]; cbn [insert_by].
  - intros [-> | []]. left; reflexivity.
  - destruct (le a y).
    + intros [-> | H]; [left; reflexivity | right; exact H].
    + intros [-> | H]; [right; left; reflexivity|].
      destruct (IH H) as [-> | H']; [left; reflexivity | right; right; exact H'].
Qed.

Lemma in_sort_by {A} (le : A -> A -> bool) (x : A) (l : list A) :
  In x (sort_by le l) -> In x l.
Proof.
  induction l as [|a l IH]; cbn [sort_by fold_right]; [intros []|].
  fold (sort_by le l). intro H. destruct (in_insert_by le a x _ H) as [-> | H'].
  - left; reflexivity.
  - right; apply IH; exact H'.
Qed.

(** The rows of one batch are all past the cursor [c]: every id entered is
    past [c] and the cursor stays at or past [c]. *)
Lemma process_rows_past (api : Api) (parse_text : string -> Q) (tbl : Table)
    (rows : list TelemetryRow) (st : ConnState) (c : Z) :
  (c <= last_processed_id st)%Z ->
  (forall r, In r rows -> c < id r)%Z ->
  let '(ids, st', _, _) := process_rows api parse_text tbl st rows in
  (forall i, In i ids -> c < i)%Z /\ (c <= last_processed_id st')%Z.
Proof.
  revert tbl st.
  induction rows as [|row rest IH]; intros tbl st Hc Hrows; cbn [process_rows].
  - split; [intros i []| exact Hc].
  - destruct (calculate_features _) as [drift r2].
    assert (Hrow : (c < id row)%Z) by (apply Hrows; left; reflexivity).
    destruct (feature_write tbl drift r2 (id row)) as [tbl1 | e].
    + match goal with
      | |- context [process_rows api parse_text ?t ?s rest] =>
        pose proof (IH t s) as IH'; destruct (process_rows api parse_text t s rest)
          as [[[ids st''] tbl'] err]
      end.
      destruct IH' as [Hids Hst].
      * cbn. lia.
      * intros r Hr. apply Hrows. right; exact Hr.
      * split; [|exact Hst]. intros i [<- | Hi]; [exact Hrow | apply Hids; exact Hi].
    + split; [intros i [<- | []]; exact Hrow | exact Hc].
Qed.

Lemma poll_once_past (api : Api) (parse_text : string -> Q) (snapshot : option Table)
    (st : ConnState) (c : Z) :
  (c <= last_processed_id st)%Z ->
  let '(ids, st') := poll_once api parse_text snapshot st in
  (forall i, In i ids -> c < i)%Z /\ (c <= last_processed_id st')%Z.
Proof.
  intro Hc. unfold poll_once.
  destruct snapshot as [tbl|]; [|split; [intros i []| exact Hc]].
  match goal with
  | |- context [match ?rs with [] => _ | _ :: _ => _ end] =>
    assert (Hrs : forall r, In r rs -> (c < id r)%Z); [|destruct rs as [|r0 rs']]
  end.
  - intros r Hr. apply in_firstn in Hr. apply in_sort_by in Hr.
    apply filter_In in Hr. destruct Hr as [_ Hr]. apply Z.ltb_lt in Hr. lia.
  - split; [intros i []| exact Hc].
  - match goal with
    | |- context [process_rows api parse_text tbl st ?rs] =>
      pose proof (process_rows_past api parse_text tbl rs st c Hc Hrs) as P;
      destruct (process_rows api parse_text tbl st rs) as [[[ids st'] tbl'] err]
    end.
    exact P.
Qed.

Lemma run_loop_past (api : Api) (parse_text : string -> Q)
    (snapshots : list (option Table)) (st : ConnState) (c : Z) :
  (c <= last_processed_id st)%Z ->
  forall i, In i (fst (run_loop api parse_text snapshots st)) -> (c < i)%Z.
Proof.
  revert st. induction snapshots as [|s rest IH]; intros st Hc i; cbn [run_loop].
  - intros [].
  - pose proof (poll_once_past api parse_text s st c Hc) as P.
    destruct (poll_once api parse_text s st) as [ids st'].
    destruct P as [Hids Hst].
    pose proof (IH st' Hst) as IH'.
    destruct (run_loop api parse_text rest st') as [ids' st''].
    cbn [fst] in *. intro Hi. apply in_app_or in Hi.
    destruct Hi as [Hi | Hi]; [apply Hids | apply IH']; exact Hi.
Qed.

Lemma nodup_ids_seq (a n : nat) : NoDup (map Z.of_nat (seq a n)).
Proof.
  apply Injective_map_NoDup; [exact Nat2Z.inj | apply seq_NoDup].
Qed.

(** C9 (code bug). On a first-run store (no [ai_status] column) with a
    backlog of 1001 rows past the resume point 0, the resume-point query
    raises, the startup [except] keeps the cursor at 0 and the lag check is
    never reached: the cursor is not moved to the newest id 1001, and the
    first poll of the main loop enters row 1, which lies strictly between
    the resume point and the newest id. *)
Theorem lag_skip_missed_on_first_run :
  py_in "ai_status" (columns backlog_no_verdict_column) = false /\
  (LAG_SKIP_THRESHOLD <
     Z.of_nat (length (filter (fun r => Z.ltb (last_verdict_id backlog_no_verdict_column) (id r))
                              (trows backlog_no_verdict_column))))%Z /\
  newest_id backlog_no_verdict_column = 1001%Z /\
  fst (startup parse_text0 backlog_no_verdict_column) = 0%Z /\
  In 1%Z (fst (poll_and_process api_warning parse_text0 backlog_no_verdict_column
                 [Some backlog_no_verdict_column])).
Proof.
  split; [reflexivity|]. split; [vm_compute; reflexivity|].
  split; [vm_compute; reflexivity|]. split; [reflexivity|].
  vm_compute. left. reflexivity.
Qed.

(** The lag skip at startup.  Let the store's ids be distinct and more
    than 1000 rows lie past the resume point (the last id carrying a
    verdict).  If the
    store has the [ai_status] column, the startup cursor is the newest id
    and the main loop never enters a row with an id at or below it, so no
    row strictly between the resume point and the newest id is processed;
    if it has not, the resume-point query fails and the cursor stays 0. *)
Theorem lag_skip (api : Api) (parse_text : string -> Q) (tbl0 : Table)
    (snapshots : list (option Table))
    (Hnd : NoDup (map id (trows tbl0)))
    (Hlag : (LAG_SKIP_THRESHOLD <
               Z.of_nat (length (filter (fun r => Z.ltb (last_verdict_id tbl0) (id r))
                                        (trows tbl0))))%Z) :
  (py_in "ai_status" (columns tbl0) = false -> fst (startup parse_text tbl0) = 0%Z) /\
  (py_in "ai_status" (columns tbl0) = true ->
     fst (startup parse_text tbl0) = newest_id tbl0 /\
     forall i, In i (fst (poll_and_process api parse_text tbl0 snapshots)) ->
               (newest_id tbl0 < i)%Z).
Proof.
  split.
  - intro Hcol. unfold startup. rewrite Hcol. reflexivity.
  - intro Hcol.
    pose proof (backlog_gap tbl0 Hnd) as Hgap.
    unfold LAG_SKIP_THRESHOLD in Hlag.
    assert (Hs : fst (startup parse_text tbl0) = newest_id tbl0).
    { unfold startup. rewrite Hcol. cbn [negb]. cbv zeta.
      assert (E : Z.ltb LAG_SKIP_THRESHOLD (newest_id tbl0 - last_verdict_id tbl0) = true).
      { apply Z.ltb_lt. unfold LAG_SKIP_THRESHOLD. lia. }
      rewrite E. reflexivity. }
    split; [exact Hs|].
    unfold poll_and_process.
    destruct (startup parse_text tbl0) as [cursor eng]. cbn [fst] in Hs.
    apply run_loop_past. cbn [last_processed_id]. lia.
Qed.

(** Witness of [lag_skip]: a backlog of 1001 rows past a verdict at id 1. *)
Lemma lag_skip_witness :
  (py_in "ai_status" (columns backlog_with_verdicts) = false ->
     fst (startup parse_text0 backlog_with_verdicts) = 0%Z) /\
  (py_in "ai_status" (columns backlog_with_verdicts) = true ->
     fst (startup parse_text0 backlog_with_verdicts) = newest_id backlog_with_verdicts /\
     forall i, In i (fst (poll_and_process api_warning parse_text0 backlog_with_verdicts
                            [Some backlog_with_verdicts])) ->
               (newest_id backlog_with_verdicts < i)%Z).
Proof.
  apply lag_skip.
  - replace (map id (trows backlog_with_verdicts)) with (map Z.of_nat (seq 1 1002))
      by (vm_compute; reflexivity).
    apply nodup_ids_seq.
  - vm_compute. reflexivity.
Defined.

End ConnectorFacts.

(** * Further properties of [predict_health] *)
Module EngineExtras.
Import AiApi Fixtures QFacts.
Local Open Scope string_scope.

(** Splits [predict_health] into its seven returns. *)
Ltac predict_health_cases :=
  unfold predict_health; cbv zeta;
  destruct (negb _ && _) eqn:Egate;
  [| destruct (Qltb (pressure _) 0.5) eqn:Eoff;
     [| destruct (bind _ _) as [[xp xl]|[k m]] eqn:Exgb;
        [ cbn [f_drift_velocity features_of];
          destruct (Qltb _ 0.4) eqn:E04;
          [| destruct (Qltb _ 0.8) eqn:E08;
             [| match goal with
                | |- context [bind (predict_proba ?rf ?f) _] =>
                  destruct (predict_proba rf f) as [rp|re] eqn:Erp; cbn [bind];
                  [ destruct (predict rf f) as [rl|rle] eqn:Erl; cbn [bind];
                    [ destruct (_ || _) eqn:Ecrit | ] | ]
                end ]]
        | ]]].

(** Turns the code's tests into hypotheses on rationals. *)
Ltac qtests :=
  repeat match goal with
  | H : Qltb _ _ = true |- _ => apply Qltb_true in H
  | H : Qltb _ _ = false |- _ => apply Qltb_false in H
  | H : (_ || _) = false |- _ => apply orb_false_iff in H; destruct H
  end.

Lemma drift_risk_bounds (d : Q) : 0 <= drift_risk_of d <= 1.
Proof.
  destruct (DecisionEngineFacts.drift_risk_cases d) as [[A B]|[[A B]|[[A B]|[A B]]]];
    rewrite B; lra.
Qed.

Lemma pymax_cases (a b : Q) : pymax a b = a \/ pymax a b = b.
Proof. unfold pymax. destruct (Qltb a b); [right | left]; reflexivity. Qed.

Lemma pymax_ge_l (a b : Q) : a <= pymax a b.
Proof.
  unfold pymax. destruct (Qltb a b) eqn:E; [apply Qltb_true in E; lra | lra].
Qed.

(** Every verdict's status agrees with its risk score: OPTIMAL below 0.4,
    WARNING in [0.4, 0.9], CRITICAL_FAILURE at 0.8 or more, STANDBY at 0
    and OFFLINE at 0.99. *)
Theorem verdict_status_risk (xgb rf : Classifier) (data : SensorData) (v : Verdict)
    (Hres : predict_health xgb rf data = Ret (RVerdict v)) :
  (status v = OPTIMAL -> risk_score v < 0.4) /\
  (status v = WARNING -> 0.4 <= risk_score v <= 0.9) /\
  (status v = CRITICAL_FAILURE -> 0.8 <= risk_score v) /\
  (status v = STANDBY -> risk_score v == 0) /\
  (status v = OFFLINE -> risk_score v == 0.99).
Proof.
  revert Hres. predict_health_cases; intro H; inversion H; subst; clear H;
    cbn [status risk_score];
    refine (conj _ (conj _ (conj _ (conj _ _)))); intro Hs; try discriminate Hs;
    try reflexivity; qtests; try split;
    try (match goal with |- _ <= pymax ?a ?b => pose proof (pymax_ge_l a b) end); lra.
Qed.

Lemma verdict_status_risk_witness :
  (status golden_verdict = OPTIMAL -> risk_score golden_verdict < 0.4) /\
  (status golden_verdict = WARNING -> 0.4 <= risk_score golden_verdict <= 0.9) /\
  (status golden_verdict = CRITICAL_FAILURE -> 0.8 <= risk_score golden_verdict) /\
  (status golden_verdict = STANDBY -> risk_score golden_verdict == 0) /\
  (status golden_verdict = OFFLINE -> risk_score golden_verdict == 0.99).
Proof.
  apply (verdict_status_risk (const_model 0.02 0) (const_model 0.1 0)
           (sample 3.5 0 "QUENCH")).
  vm_compute. reflexivity.
Defined.

Lemma blended_risk_bounds (p d : Q) : 0 <= p <= 1 -> 0 <= blended_risk_of p d <= 1.
Proof.
  intro Hp. pose proof (drift_risk_bounds d).
  unfold blended_risk_of.
  destruct (pymax_cases p (drift_risk_of d * 0.8 + p * 0.2)) as [-> | ->]; lra.
Qed.

(** With both models giving probabilities in [0, 1], every verdict's risk
    score lies in [0, 1]. *)
Theorem risk_score_bounds (xgb rf : Classifier) (data : SensorData) (v : Verdict)
    (Hxgb : forall f p, predict_proba xgb f = Ret p -> 0 <= p <= 1)
    (Hrf : forall f p, predict_proba rf f = Ret p -> 0 <= p <= 1)
    (Hres : predict_health xgb rf data = Ret (RVerdict v)) :
  0 <= risk_score v <= 1.
Proof.
  revert Hres. predict_health_cases; intro H; inversion H; subst; clear H;
    cbn [risk_score]; try (split; discriminate).
  all: assert (Hxp : 0 <= xp <= 1) by
         (revert Exgb; destruct (predict_proba xgb _) eqn:E; cbn [bind]; [|discriminate];
          destruct (predict xgb _); cbn [bind]; [|discriminate];
          intro Hq; inversion Hq; subst; exact (Hxgb _ _ E)).
  all: pose proof (blended_risk_bounds xp (deadband (drift data)) Hxp); try lra.
  pose proof (Hrf _ _ Erp).
  destruct (pymax_cases (blended_risk_of xp (deadband (drift data))) rp) as [-> | ->]; lra.
Qed.

Lemma risk_score_bounds_witness :
  0 <= risk_score golden_verdict <= 1.
Proof.
  apply (risk_score_bounds (const_model 0.02 0) (const_model 0.1 0) (sample 3.5 0 "QUENCH")).
  - intros f p Hp. inversion Hp. split; apply Qle_bool_iff; reflexivity.
  - intros f p Hp. inversion Hp. split; apply Qle_bool_iff; reflexivity.
  - vm_compute. reflexivity.
Defined.

(** Below the 0.8 band the secondary model is never consulted: the answer
    is the same whatever secondary model is loaded. *)
Theorem secondary_model_unused_below_08 (xgb rf1 rf2 : Classifier) (data : SensorData)
    (p : Q) (l : Z)
    (Hprob : predict_proba xgb (features_of data) = Ret p)
    (Hpred : predict xgb (features_of data) = Ret l)
    (Hlow : blended_risk_of p (deadband (drift data)) < 0.8) :
  predict_health xgb rf1 data = predict_health xgb rf2 data.
Proof.
  unfold predict_health. cbv zeta.
  destruct (negb _ && _); [reflexivity|].
  destruct (Qltb (pressure data) 0.5); [reflexivity|].
  rewrite Hprob. cbn [bind]. rewrite Hpred. cbn [bind f_drift_velocity features_of].
  apply Qltb_true in Hlow. rewrite Hlow.
  destruct (Qltb _ 0.4); reflexivity.
Qed.

Lemma secondary_model_unused_below_08_witness :
  predict_health (const_model 0.3 1) raising_model (sample 3.2 (-0.06) "QUENCH") =
  predict_health (const_model 0.3 1) (const_model 0.9 1) (sample 3.2 (-0.06) "QUENCH").
Proof.
  apply (secondary_model_unused_below_08 _ _ _ _ 0.3 1); [reflexivity | reflexivity |].
  apply Qltb_true. vm_compute. reflexivity.
Defined.

(** [predict_health] raises only through the secondary model: if that
    model answers, a failure of the primary model is returned as an error
    result and no exception leaves the endpoint. *)
Theorem raises_only_through_secondary (xgb rf : Classifier) (data : SensorData)
    (Hrf : forall f, exists q l, predict_proba rf f = Ret q /\ predict rf f = Ret l) :
  exists r, predict_health xgb rf data = Ret r /\
    ((exists v, r = RVerdict v) \/
     (exists k m, r = RError ("Inference Failed: " ++ m) /\
        (predict_proba xgb (features_of data) = Raise (Exn k m) \/
         exists p, predict_proba xgb (features_of data) = Ret p /\
                   predict xgb (features_of data) = Raise (Exn k m)))).
Proof.
  destruct (Hrf (features_of data)) as [q [l [Hq Hl]]].
  unfold predict_health. cbv zeta.
  destruct (negb _ && _); [eexists; split; [reflexivity | left; eexists; reflexivity]|].
  destruct (Qltb _ 0.5); [eexists; split; [reflexivity | left; eexists; reflexivity]|].
  destruct (predict_proba xgb (features_of data)) as [p|[k m]] eqn:Ep; cbn [bind].
  - destruct (predict xgb (features_of data)) as [z|[k m]] eqn:Ez; cbn [bind].
    + cbn [f_drift_velocity features_of].
      destruct (Qltb _ 0.4); [eexists; split; [reflexivity | left; eexists; reflexivity]|].
      destruct (Qltb _ 0.8); [eexists; split; [reflexivity | left; eexists; reflexivity]|].
      cbn [features_of] in Hq, Hl. rewrite Hq. cbn [bind]. rewrite Hl. cbn [bind].
      destruct (_ || _); (eexists; split; [reflexivity | left; eexists; reflexivity]).
    + eexists; split; [reflexivity|]. right. exists k, m. split; [reflexivity|].
      right. exists p. split; reflexivity.
  - eexists; split; [reflexivity|]. right. exists k, m. split; [reflexivity|].
    left. reflexivity.
Qed.

Lemma raises_only_through_secondary_witness :
  exists r, predict_health raising_model (const_model 0.1 0) (sample 3.5 0 "QUENCH") = Ret r /\
    ((exists v, r = RVerdict v) \/
     (exists k m, r = RError ("Inference Failed: " ++ m) /\
        (predict_proba raising_model (features_of (sample 3.5 0 "QUENCH")) = Raise (Exn k m) \/
         exists p, predict_proba raising_model (features_of (sample 3.5 0 "QUENCH")) = Ret p /\
                   predict raising_model (features_of (sample 3.5 0 "QUENCH")) = Raise (Exn k m)))).
Proof.
  apply raises_only_through_secondary.
  intro f. exists 0.1, 0%Z. split; reflexivity.
Defined.

(** What the guardrail verdicts say about the request: STANDBY only for an
    inactive state below pressure 1.0, OFFLINE only for an active state
    below 0.5, and every inferred verdict has pressure at least 0.5. *)
Theorem guardrail_verdicts (xgb rf : Classifier) (data : SensorData) (v : Verdict)
    (Hres : predict_health xgb rf data = Ret (RVerdict v)) :
  (status v = STANDBY ->
     py_in (normalize_state (machine_state data)) valid_states = false /\ pressure data < 1) /\
  (status v = OFFLINE ->
     py_in (normalize_state (machine_state data)) valid_states = true /\ pressure data < 0.5) /\
  (status v <> STANDBY -> status v <> OFFLINE -> 0.5 <= pressure data).
Proof.
  revert Hres. predict_health_cases; intro H; inversion H; subst; clear H;
    cbn [status]; refine (conj _ (conj _ _)); intro Hs; try discriminate Hs.
  all: try (intro Hs'; contradiction).
  all: try (apply Qltb_false in Eoff; intros; exact Eoff).
  - apply andb_true_iff in Egate. destruct Egate as [E1 E2].
    apply negb_true_iff in E1. apply Qltb_true in E2.
    split; [exact E1 | lra].
  - apply Qltb_true in Eoff. split; [|exact Eoff].
    destruct (py_in _ _) eqn:Ein; [reflexivity|].
    cbn [negb andb] in Egate. apply Qltb_false in Egate. lra.
Qed.

Lemma guardrail_verdicts_witness :
  (status golden_verdict = STANDBY ->
     py_in (normalize_state (machine_state (sample 3.5 0 "QUENCH"))) valid_states = false /\
     pressure (sample 3.5 0 "QUENCH") < 1) /\
  (status golden_verdict = OFFLINE ->
     py_in (normalize_state (machine_state (sample 3.5 0 "QUENCH"))) valid_states = true /\
     pressure (sample 3.5 0 "QUENCH") < 0.5) /\
  (status golden_verdict <> STANDBY -> status golden_verdict <> OFFLINE ->
     0.5 <= pressure (sample 3.5 0 "QUENCH")).
Proof.
  apply (guardrail_verdicts (const_model 0.02 0) (const_model 0.1 0)).
  vm_compute. reflexivity.
Defined.

(** The keys of a verdict follow its status: the guardrail verdicts carry a
    confidence of 0 and neither rca nor drift; the model's verdicts carry the
    rca of their band, the drift after the deadband, and no confidence. *)
Theorem verdict_fields (xgb rf : Classifier) (data : SensorData) (v : Verdict)
    (Hres : predict_health xgb rf data = Ret (RVerdict v)) :
  rca v = match status v with
          | STANDBY | OFFLINE => None
          | OPTIMAL => Some NONE
          | WARNING => Some EARLY_DRIFT
          | CRITICAL_FAILURE => Some DRIFT_CONFIRMED
          end /\
  match status v with
  | STANDBY | OFFLINE => confidence v = Some 0 /\ drift_velocity v = None
  | _ => confidence v = None /\ drift_velocity v = Some (deadband (drift data))
  end.
Proof.
  revert Hres. predict_health_cases; intro H; inversion H; subst; clear H;
    cbn [status rca confidence drift_velocity]; repeat split; reflexivity.
Qed.

Lemma verdict_fields_witness :
  rca golden_verdict = match status golden_verdict with
          | STANDBY | OFFLINE => None
          | OPTIMAL => Some NONE
          | WARNING => Some EARLY_DRIFT
          | CRITICAL_FAILURE => Some DRIFT_CONFIRMED
          end /\
  match status golden_verdict with
  | STANDBY | OFFLINE => confidence golden_verdict = Some 0 /\ drift_velocity golden_verdict = None
  | _ => confidence golden_verdict = None /\
         drift_velocity golden_verdict = Some (deadband (drift (sample 3.5 0 "QUENCH")))
  end.
Proof.
  apply (verdict_fields (const_model 0.02 0) (const_model 0.1 0) (sample 3.5 0 "QUENCH")).
  vm_compute. reflexivity.
Defined.

(** The primary model's label ([xgb_pred]) is computed but never used: two
    primary models with the same probabilities whose [predict] answers give
    the same response. *)
Theorem primary_label_unused (xgb1 xgb2 rf : Classifier) (data : SensorData)
    (Hp : forall f, predict_proba xgb1 f = predict_proba xgb2 f)
    (H1 : forall f, exists z, predict xgb1 f = Ret z)
    (H2 : forall f, exists z, predict xgb2 f = Ret z) :
  predict_health xgb1 rf data = predict_health xgb2 rf data.
Proof.
  unfold predict_health. cbv zeta.
  destruct (negb _ && _); [reflexivity|].
  destruct (Qltb _ 0.5); [reflexivity|].
  rewrite Hp. destruct (predict_proba xgb2 (features_of data)) as [p|e]; cbn [bind];
    [|reflexivity].
  destruct (H1 (features_of data)) as [z1 ->]. destruct (H2 (features_of data)) as [z2 ->].
  reflexivity.
Qed.

Lemma primary_label_unused_witness :
  predict_health (const_model 0.02 0) (const_model 0.1 0) (sample 3.5 0 "QUENCH") =
  predict_health (const_model 0.02 1) (const_model 0.1 0) (sample 3.5 0 "QUENCH").
Proof.
  apply primary_label_unused.
  - intro f. reflexivity.
  - intro f. exists 0%Z. reflexivity.
  - intro f. exists 1%Z. reflexivity.
Defined.

(** Past the guardrails, a failure of either call of the primary model is
    answered with the error dictionary carrying the exception's text; the
    endpoint does not raise. *)
Theorem primary_failure_reported (xgb rf : Classifier) (data : SensorData) (k m : string)
    (Hx : predict_proba xgb (features_of data) = Raise (Exn k m) \/
          (exists p, predict_proba xgb (features_of data) = Ret p /\
                     predict xgb (features_of data) = Raise (Exn k m)))
    (Hon : 0.5 <= pressure data)
    (Hgate : py_in (normalize_state (machine_state data)) valid_states = true \/
             1.0 <= pressure data) :
  predict_health xgb rf data = Ret (RError ("Inference Failed: " ++ m)).
Proof.
  unfold predict_health. cbv zeta.
  assert (Eg : negb (py_in (normalize_state (machine_state data)) valid_states)
               && Qltb (pressure data) 1.0 = false).
  { destruct Hgate as [-> | G]; [reflexivity|].
    rewrite (proj2 (Qltb_false (pressure data) 1.0) G). apply andb_false_r. }
  rewrite Eg, (proj2 (Qltb_false _ _) Hon).
  destruct Hx as [-> | [p [-> ->]]]; reflexivity.
Qed.

Lemma primary_failure_reported_witness :
  predict_health raising_model (const_model 0.1 0) (sample 3.5 0 "QUENCH") =
  Ret (RError ("Inference Failed: " ++ "model not fitted")).
Proof.
  apply (primary_failure_reported _ _ _ "XGBoostError").
  - left. reflexivity.
  - cbn. lra.
  - left. vm_compute. reflexivity.
Defined.

End EngineExtras.

(** * Further properties of the connector *)
Module ConnectorExtras.
Import DbPollClient ConnectorFixtures QFacts.
Local Open Scope string_scope.

(** ** The rolling window *)

(** [add_reading] keeps the newest [WINDOW_SIZE] readings in arrival
    order: the window stays bounded by 20 and drops only the oldest. *)
Theorem add_reading_window (fe : FeatureEngineer) (t p : Q)
    (Hbound : (length (history fe) <= WINDOW_SIZE)%nat) :
  history (add_reading fe t p) =
    skipn (length (history fe) + 1 - WINDOW_SIZE) (app (history fe) [(t, p)]) /\
  (length (history (add_reading fe t p)) <= WINDOW_SIZE)%nat.
Proof.
  unfold add_reading, deque_append. cbn [history].
  rewrite length_app. cbn [length].
  destruct (WINDOW_SIZE <? length (history fe) + 1)%nat eqn:E.
  - apply Nat.ltb_lt in E.
    replace (length (history fe) + 1 - WINDOW_SIZE)%nat with 1%nat by lia.
    split; [destruct (app (history fe) [(t, p)]); reflexivity|].
    rewrite length_tl, length_app. cbn [length]. lia.
  - apply Nat.ltb_ge in E.
    replace (length (history fe) + 1 - WINDOW_SIZE)%nat with 0%nat by lia.
    split; [reflexivity|]. rewrite length_app. cbn [length]. lia.
Qed.

Lemma add_reading_window_witness :
  history (add_reading full_window 20 3.5) =
    skipn (length (history full_window) + 1 - WINDOW_SIZE)
          (app (history full_window) [(20, 3.5)]) /\
  (length (history (add_reading full_window 20 3.5)) <= WINDOW_SIZE)%nat.
Proof.
  apply add_reading_window. vm_compute. lia.
Defined.

Lemma fold_add_reading_length (rows : list TelemetryRow) (f : TelemetryRow -> Q * Q)
    (fe : FeatureEngineer) :
  (length (history fe) <= WINDOW_SIZE)%nat ->
  length (history (fold_left (fun e r => add_reading e (fst (f r)) (snd (f r))) rows fe))
  = Nat.min WINDOW_SIZE (length (history fe) + length rows).
Proof.
  revert fe. induction rows as [|r rows IH]; intros fe Hfe; cbn [fold_left length].
  - lia.
  - destruct (add_reading_window fe (fst (f r)) (snd (f r)) Hfe) as [Hh Hl].
    rewrite (IH _ Hl). rewrite Hh, length_skipn, length_app. cbn [length].
    unfold WINDOW_SIZE in *. lia.
Qed.

(** ** Startup without a lag skip *)

Lemma length_insert_by {A} (le : A -> A -> bool) (a : A) (l : list A) :
  length (insert_by le a l) = S (length l).
Proof.
  induction l as [|b l IH]; [reflexivity|].
  cbn [insert_by]. destruct (le a b); cbn [length]; [reflexivity | rewrite IH; reflexivity].
Qed.

Lemma length_sort_by {A} (le : A -> A -> bool) (l : list A) :
  length (sort_by le l) = length l.
Proof.
  induction l as [|a l IH]; [reflexivity|].
  cbn [sort_by fold_right]. fold (sort_by le l). rewrite length_insert_by, IH. reflexivity.
Qed.

(** When the store has the [ai_status] column and at most 1000 ids lie
    between the resume point and the newest id, the connector resumes right
    after the resume point, and the warm-up fills the window with the
    [min(20, n)] readings of the [n] rows at or before it. *)
Theorem startup_resumes (parse_text : string -> Q) (tbl : Table)
    (Hcol : py_in "ai_status" (columns tbl) = true)
    (Hgap : (newest_id tbl - last_verdict_id tbl <= LAG_SKIP_THRESHOLD)%Z) :
  fst (startup parse_text tbl) = last_verdict_id tbl /\
  length (history (snd (startup parse_text tbl))) =
    Nat.min WINDOW_SIZE
      (length (filter (fun r => Z.leb (id r) (last_verdict_id tbl)) (trows tbl))).
Proof.
  unfold startup. rewrite Hcol. cbn [negb]. cbv zeta.
  assert (E : Z.ltb LAG_SKIP_THRESHOLD (newest_id tbl - last_verdict_id tbl) = false)
    by (apply Z.ltb_ge; exact Hgap).
  rewrite E. cbn [fst snd]. split; [reflexivity|].
  rewrite (fold_add_reading_length _
             (fun r => (parse_timestamp parse_text (timestamp_sim r),
                        or_default (quench_pressure r) 0))
             empty_engineer) by (cbn; lia).
  cbn [history empty_engineer length]. rewrite length_rev, length_firstn.
  unfold order_by_id_desc. rewrite length_sort_by. lia.
Qed.

Lemma startup_resumes_witness :
  fst (startup parse_text0 resumable_table) = last_verdict_id resumable_table /\
  length (history (snd (startup parse_text0 resumable_table))) =
    Nat.min WINDOW_SIZE
      (length (filter (fun r => Z.leb (id r) (last_verdict_id resumable_table))
                      (trows resumable_table))).
Proof.
  apply startup_resumes; vm_compute; [reflexivity | discriminate].
Defined.

(** ** The cursor over the main loop *)

(** Over any run of the main loop the cursor never moves back, and every
    row the loop enters lies past the cursor it started from. *)
Theorem run_loop_cursor_monotone (api : Api) (parse_text : string -> Q)
    (snapshots : list (option Table)) (st : ConnState) :
  (last_processed_id st <= last_processed_id (snd (run_loop api parse_text snapshots st)))%Z /\
  forall i, In i (fst (run_loop api parse_text snapshots st)) ->
            (last_processed_id st < i)%Z.
Proof.
  split; [|apply ConnectorFacts.run_loop_past; lia].
  generalize (Z.le_refl (last_processed_id st)).
  generalize (last_processed_id st) at 1 3. intros c Hc.
  revert st Hc. induction snapshots as [|s rest IH]; intros st Hc; cbn [run_loop].
  - exact Hc.
  - pose proof (ConnectorFacts.poll_once_past api parse_text s st c Hc) as P.
    destruct (poll_once api parse_text s st) as [ids st'].
    destruct P as [_ Hst].
    specialize (IH st' Hst).
    destruct (run_loop api parse_text rest st') as [ids' st'']. exact IH.
Qed.

(** ** Writes to the store *)

Lemma py_in_app_single (c d : string) (l : list string) :
  py_in c (app l [d]) = py_in c l || String.eqb c d.
Proof.
  unfold py_in. rewrite existsb_app. cbn [existsb]. rewrite orb_false_r. reflexivity.
Qed.

Lemma find_map_same {A} (p : A -> bool) (g : A -> A) (l : list A) :
  (forall x, p (g x) = p x) -> find p (map g l) = option_map g (find p l).
Proof.
  intro Hg. induction l as [|x l IH]; [reflexivity|].
  cbn [map find]. rewrite Hg. destruct (p x); [reflexivity | exact IH].
Qed.

Lemma find_row (tbl : Table) (i : Z) :
  (exists r, In r (trows tbl) /\ id r = i) ->
  exists r0, find (fun r => Z.eqb (id r) i) (trows tbl) = Some r0 /\ id r0 = i.
Proof.
  intros [r [Hin Hid]].
  destruct (find (fun r => Z.eqb (id r) i) (trows tbl)) as [r0|] eqn:E.
  - apply find_some in E. destruct E as [_ E]. apply Z.eqb_eq in E. exists r0; split; auto.
  - pose proof (find_none _ _ E r Hin) as H. cbn in H. rewrite Hid, Z.eqb_refl in H.
    discriminate.
Qed.

(** Rewrites [cell] over the row maps of updates and added columns. *)
Ltac cell_maps :=
  unfold cell; cbn [trows];
  repeat rewrite find_map_same
    by (let x := fresh "x" in intro x;
        try match goal with |- context [if ?b then _ else _] =>
              let Eb := fresh "Eb" in destruct b eqn:Eb end;
        cbn [with_extra id]; congruence).

(** The feature write stores drift and r2 in the row, and leaves both
    columns in place, when both columns exist and also when neither does
    (first run: it adds them and re-issues the update). *)
Theorem feature_write_persists (tbl : Table) (drift r2 : Q) (i : Z)
    (Hrow : exists r, In r (trows tbl) /\ id r = i)
    (Hcols : py_in "drift_velocity" (columns tbl) = py_in "confidence_r2" (columns tbl)) :
  exists t, feature_write tbl drift r2 i = Ret t /\
    cell t i "drift_velocity" = SqlReal drift /\
    cell t i "confidence_r2" = SqlReal r2 /\
    py_in "drift_velocity" (columns t) = true /\
    py_in "confidence_r2" (columns t) = true.
Proof.
  destruct (find_row tbl i Hrow) as [r0 [Hf Hid]].
  unfold feature_write, sql_update, feature_sets. cbn [find].
  destruct (py_in "drift_velocity" (columns tbl)) eqn:E1;
  destruct (py_in "confidence_r2" (columns tbl)) eqn:E2; try discriminate Hcols;
  cbn [negb].
  - eexists; split; [reflexivity|].
    cell_maps. rewrite Hf. cbn [option_map]. rewrite Hid, Z.eqb_refl.
    cbn - [py_in]. repeat split; first [reflexivity | assumption].
  - cbn - [py_in]. unfold sql_add_column at 1. rewrite E1. cbn - [py_in].
    unfold sql_add_column. cbn [columns]. rewrite py_in_app_single, E2. cbn - [py_in].
    rewrite !py_in_app_single, E1, E2. cbn - [py_in].
    eexists; split; [reflexivity|].
    cell_maps. rewrite Hf. cbn [option_map]. cbn [id with_extra]. rewrite Hid, Z.eqb_refl.
    cbn - [py_in]. rewrite !py_in_app_single, !orb_true_r.
    cbn. repeat split; reflexivity.
Qed.

Lemma feature_write_persists_witness :
  exists t, feature_write first_run_table 0.5 0.9 7 = Ret t /\
    cell t 7 "drift_velocity" = SqlReal 0.5 /\
    cell t 7 "confidence_r2" = SqlReal 0.9 /\
    py_in "drift_velocity" (columns t) = true /\
    py_in "confidence_r2" (columns t) = true.
Proof.
  apply feature_write_persists; [|reflexivity].
  exists (mk_row 7 []). split; [left; reflexivity | reflexivity].
Defined.

(** A half-migrated store (exactly one of the two feature columns exists)
    makes the feature write raise: the update misses the absent column and
    the first [ALTER] then hits the existing one, outside any [try]. *)
Theorem feature_write_half_migrated (tbl : Table) (drift r2 : Q) (i : Z)
    (Hhalf : py_in "drift_velocity" (columns tbl) <> py_in "confidence_r2" (columns tbl)) :
  feature_write tbl drift r2 i =
  Raise (OperationalError ("duplicate column name: " ++
           (if py_in "drift_velocity" (columns tbl) then "drift_velocity"
            else "confidence_r2"))).
Proof.
  unfold feature_write, sql_update, feature_sets. cbn [find].
  destruct (py_in "drift_velocity" (columns tbl)) eqn:E1;
  destruct (py_in "confidence_r2" (columns tbl)) eqn:E2; try (exfalso; apply Hhalf; reflexivity);
  cbn - [py_in]; unfold sql_add_column at 1; rewrite E1; cbn - [py_in].
  - reflexivity.
  - unfold sql_add_column. cbn [columns]. rewrite py_in_app_single, E2. reflexivity.
Qed.

Lemma feature_write_half_migrated_witness :
  feature_write {| columns := ["confidence_r2"]; trows := [mk_row 7 []] |} 0.5 0.9 7 =
  Raise (OperationalError ("duplicate column name: " ++
           (if py_in "drift_velocity" ["confidence_r2"] then "drift_velocity"
            else "confidence_r2"))).
Proof.
  apply (feature_write_half_migrated {| columns := ["confidence_r2"]; trows := [mk_row 7 []] |}).
  cbn. discriminate.
Defined.

Lemma sql_update_ret (tbl t : Table) (sets : list (string * SqlValue)) (i : Z) :
  sql_update tbl sets i = Ret t ->
  columns t = columns tbl /\ forall c v, In (c, v) sets -> py_in c (columns tbl) = true.
Proof.
  unfold sql_update.
  destruct (find (fun '(c, _) => negb (py_in c (columns tbl))) sets) as [[c v]|] eqn:E;
    intro H; inversion H; subst; clear H.
  split; [reflexivity|].
  intros c v Hin. pose proof (find_none _ _ E (c, v) Hin) as Hc. cbn in Hc.
  destruct (py_in c (columns tbl)); [reflexivity | discriminate].
Qed.

Lemma sql_update_raise (tbl : Table) (sets : list (string * SqlValue)) (i : Z) (e : exn) :
  sql_update tbl sets i = Raise e ->
  exists c v, In (c, v) sets /\ e = OperationalError ("no such column: " ++ c).
Proof.
  unfold sql_update.
  destruct (find (fun '(c, _) => negb (py_in c (columns tbl))) sets) as [[c v]|] eqn:E;
    intro H; inversion H; subst; clear H.
  exists c, v. split; [exact (proj1 (find_some _ _ E)) | reflexivity].
Qed.

Lemma str_contains_no_such_column (c : string) :
  str_contains "no such column" ("no such column: " ++ c) = true.
Proof. reflexivity. Qed.

Lemma py_in_try_add (t : Table) (c x : string) (d : SqlValue) :
  py_in x (columns (try_pass t (sql_add_column t c d))) = py_in x (columns t) || String.eqb x c.
Proof.
  unfold try_pass, sql_add_column.
  destruct (py_in c (columns t)) eqn:E; cbn [columns].
  - destruct (String.eqb x c) eqn:Ex; [|symmetry; apply orb_false_r].
    apply String.eqb_eq in Ex. subst. rewrite E. reflexivity.
  - apply py_in_app_single.
Qed.

(** The verdict write never raises, and afterwards all four connector
    columns exist and no column has been dropped: a store missing any of
    them is healed by the [ALTER]s of the "no such column" handler. *)
Theorem verdict_write_heals (tbl : Table) (risk status : SqlValue) (drift r2 : Q) (i : Z) :
  exists t, verdict_write tbl risk status drift r2 i = Ret t /\
    (forall c, py_in c (columns tbl) = true -> py_in c (columns t) = true) /\
    py_in "ai_risk_score" (columns t) = true /\
    py_in "ai_status" (columns t) = true /\
    py_in "drift_velocity" (columns t) = true /\
    py_in "confidence_r2" (columns t) = true.
Proof.
  unfold verdict_write.
  destruct (sql_update tbl (verdict_sets risk status drift r2) i) as [t|e] eqn:Eu.
  - apply sql_update_ret in Eu. destruct Eu as [Hc Hall].
    exists t. split; [reflexivity|]. rewrite Hc.
    split; [auto|].
    unfold verdict_sets in Hall.
    repeat split; eapply Hall; cbn; eauto 6.
  - apply sql_update_raise in Eu. destruct Eu as [c [v [_ ->]]].
    unfold OperationalError. cbn [String.eqb].
    rewrite str_contains_no_such_column.
    eexists; split; [reflexivity|].
    split; [intros x Hx; rewrite !py_in_try_add, Hx; reflexivity|].
    rewrite !py_in_try_add. cbn - [py_in]. rewrite !orb_true_r. repeat split; reflexivity.
Qed.

(** With all four columns present and the row present, the verdict write
    stores its four values in that row. *)
Theorem verdict_write_persists (tbl : Table) (risk status : SqlValue) (drift r2 : Q) (i : Z)
    (Hrow : exists r, In r (trows tbl) /\ id r = i)
    (Hcols : forallb (fun c => py_in c (columns tbl))
               ["ai_risk_score"; "ai_status"; "drift_velocity"; "confidence_r2"] = true) :
  exists t, verdict_write tbl risk status drift r2 i = Ret t /\
    cell t i "ai_risk_score" = risk /\ cell t i "ai_status" = status /\
    cell t i "drift_velocity" = SqlReal drift /\ cell t i "confidence_r2" = SqlReal r2.
Proof.
  destruct (find_row tbl i Hrow) as [r0 [Hf Hid]].
  cbn [forallb] in Hcols. rewrite !andb_true_iff in Hcols.
  destruct Hcols as [E1 [E2 [E3 [E4 _]]]].
  unfold verdict_write, sql_update, verdict_sets. cbn [find].
  rewrite E1, E2, E3, E4. cbn [negb].
  eexists; split; [reflexivity|].
  cell_maps. rewrite Hf. cbn [option_map]. rewrite Hid, Z.eqb_refl.
  cbn. repeat split; reflexivity.
Qed.

Lemma verdict_write_persists_witness :
  exists t, verdict_write healed_table (SqlReal 0.6) (SqlText "WARNING") 0.5 0.9 7 = Ret t /\
    cell t 7 "ai_risk_score" = SqlReal 0.6 /\ cell t 7 "ai_status" = SqlText "WARNING" /\
    cell t 7 "drift_velocity" = SqlReal 0.5 /\ cell t 7 "confidence_r2" = SqlReal 0.9.
Proof.
  apply verdict_write_persists; [|reflexivity].
  exists (mk_row 7 []). split; [left; reflexivity | reflexivity].
Defined.

Lemma feature_write_present (tbl : Table) (drift r2 : Q) (i : Z) :
  py_in "drift_velocity" (columns tbl) = true -> py_in "confidence_r2" (columns tbl) = true ->
  exists t, feature_write tbl drift r2 i = Ret t /\ columns t = columns tbl.
Proof.
  intros E1 E2. unfold feature_write, sql_update, feature_sets. cbn [find].
  rewrite E1, E2. cbn [negb]. eexists; split; reflexivity.
Qed.

Lemma last_cons_default {A} (x d : A) (l : list A) : last (x :: l) d = last l x.
Proof.
  revert x d. induction l as [|y l IH]; intros x d; [reflexivity|].
  change (last (y :: l) d = last (y :: l) x). rewrite !IH. reflexivity.
Qed.

(** Once both feature columns exist, a batch always runs to its end: every
    row is entered in order, no exception leaves the loop body (whatever the
    API answers), the cursor ends on the batch's last id and the two columns
    are still there. *)
Theorem process_rows_complete (api : Api) (parse_text : string -> Q) (tbl : Table)
    (st : ConnState) (rows : list TelemetryRow)
    (E1 : py_in "drift_velocity" (columns tbl) = true)
    (E2 : py_in "confidence_r2" (columns tbl) = true) :
  let '(ids, st', tbl', err) := process_rows api parse_text tbl st rows in
  ids = map id rows /\ err = None /\
  last_processed_id st' = last (map id rows) (last_processed_id st) /\
  py_in "drift_velocity" (columns tbl') = true /\ py_in "confidence_r2" (columns tbl') = true.
Proof.
  revert tbl st E1 E2. induction rows as [|a rest IH]; intros tbl st E1 E2.
  - cbn. repeat split; assumption.
  - cbn [process_rows].
    destruct (calculate_features _) as [d r].
    destruct (feature_write_present tbl d r (id a) E1 E2) as [t1 [-> Hc]].
    match goal with |- context [process_rows api parse_text ?T ?S rest] =>
      assert (HT : py_in "drift_velocity" (columns T) = true /\
                   py_in "confidence_r2" (columns T) = true);
      [| specialize (IH T S (proj1 HT) (proj2 HT));
         destruct (process_rows api parse_text T S rest) as [[[ids st''] tbl'] err]]
    end.
    + rewrite <- Hc in E1, E2.
      destruct (api _) as [[code result]|e]; [destruct (Z.eqb code 200)|];
        try (split; assumption).
      match goal with |- context [verdict_write ?A ?B ?C ?D ?E ?F] =>
        destruct (verdict_write_heals A B C D E F) as [tv [Ev [Hm _]]]; rewrite Ev
      end.
      cbn [try_pass]. split; apply Hm; assumption.
    + destruct IH as [-> [-> [Hl Hcols]]].
      cbn [map]. rewrite last_cons_default, Hl. cbn [last_processed_id].
      repeat split; tauto.
Qed.

Lemma process_rows_complete_witness :
  let '(ids, st', tbl', err) :=
    process_rows api_warning parse_text0 healed_table cold_state (trows healed_table) in
  ids = map id (trows healed_table) /\ err = None /\
  last_processed_id st' = last (map id (trows healed_table)) (last_processed_id cold_state) /\
  py_in "drift_velocity" (columns tbl') = true /\ py_in "confidence_r2" (columns tbl') = true.
Proof.
  apply process_rows_complete; reflexivity.
Defined.

(** ** Batches of the main loop *)

Definition id_le (a b : TelemetryRow) : Prop := (id a <= id b)%Z.

Lemma sorted_insert_by_id (x : TelemetryRow) (l : list TelemetryRow) :
  Sorted id_le l -> Sorted id_le (insert_by (fun a b => Z.leb (id a) (id b)) x l).
Proof.
  induction l as [|y r IH]; intro Hs; cbn [insert_by].
  - repeat constructor.
  - destruct (Z.leb (id x) (id y)) eqn:E.
    + apply Z.leb_le in E. constructor; [exact Hs | constructor; exact E].
    + apply Z.leb_gt in E. inversion Hs as [|? ? Hr Hhd]; subst.
      constructor; [exact (IH Hr)|].
      destruct r as [|z r']; cbn [insert_by].
      * constructor. unfold id_le. lia.
      * destruct (Z.leb (id x) (id z)); constructor.
        -- unfold id_le. lia.
        -- inversion Hhd; assumption.
Qed.

Lemma sorted_order_by_id_asc (l : list TelemetryRow) : Sorted id_le (order_by_id_asc l).
Proof.
  unfold order_by_id_asc, sort_by. induction l as [|a l IH]; cbn [fold_right].
  - constructor.
  - apply sorted_insert_by_id. exact IH.
Qed.

Lemma perm_insert_by {A} (le : A -> A -> bool) (x : A) (l : list A) :
  Permutation (insert_by le x l) (x :: l).
Proof.
  induction l as [|y r IH]; cbn [insert_by]; [reflexivity|].
  destruct (le x y); [reflexivity|].
  transitivity (y :: x :: r); [apply perm_skip; exact IH | apply perm_swap].
Qed.

Lemma perm_sort_by {A} (le : A -> A -> bool) (l : list A) : Permutation (sort_by le l) l.
Proof.
  unfold sort_by. induction l as [|a l IH]; cbn [fold_right]; [reflexivity|].
  rewrite perm_insert_by. apply perm_skip. exact IH.
Qed.

Lemma strongly_sorted_ids (l : list TelemetryRow) :
  StronglySorted id_le l -> NoDup (map id l) -> StronglySorted Z.lt (map id l).
Proof.
  induction l as [|a l IH]; intros Hs Hnd; cbn [map]; [constructor|].
  inversion Hs as [|? ? Hs' Hall]; subst. inversion Hnd as [|? ? Hnin Hnd']; subst.
  constructor; [exact (IH Hs' Hnd')|].
  apply Forall_forall. intros z Hz. apply in_map_iff in Hz. destruct Hz as [r [<- Hr]].
  rewrite Forall_forall in Hall. specialize (Hall r Hr). unfold id_le in Hall.
  assert (id a <> id r) by (intros He; apply Hnin; rewrite He; apply in_map; exact Hr).
  lia.
Qed.

Lemma strongly_sorted_app_l {A} (R : A -> A -> Prop) (a b : list A) :
  StronglySorted R (a ++ b) -> StronglySorted R a.
Proof.
  induction a as [|x a IH]; intro H; cbn in H; [constructor|].
  inversion H as [|? ? Hs Hall]; subst. constructor; [exact (IH Hs)|].
  rewrite Forall_forall in *. intros y Hy. apply Hall. apply in_or_app. left; exact Hy.
Qed.

Lemma process_rows_prefix (api : Api) (parse_text : string -> Q) (tbl : Table)
    (st : ConnState) (rows : list TelemetryRow) :
  let '(ids, _, _, _) := process_rows api parse_text tbl st rows in
  exists suf, map id rows = app ids suf.
Proof.
  revert tbl st. induction rows as [|a rest IH]; intros tbl st.
  - exists []. reflexivity.
  - cbn [process_rows]. destruct (calculate_features _) as [d r].
    destruct (feature_write tbl d r (id a)).
    + match goal with |- context [process_rows api parse_text ?T ?S rest] =>
        specialize (IH T S); destruct (process_rows api parse_text T S rest)
          as [[[ids st''] tbl'] err]
      end.
      destruct IH as [suf Hsuf]. exists suf. cbn [map]. rewrite Hsuf. reflexivity.
    + exists (map id rest). reflexivity.
Qed.

(** Given distinct ids in the table, one poll enters rows in strictly
    increasing id order, at most 50 of them, all past the cursor. *)
Theorem poll_once_batch (api : Api) (parse_text : string -> Q) (tbl : Table)
    (st : ConnState) (Hnd : NoDup (map id (trows tbl))) :
  let '(ids, _) := poll_once api parse_text (Some tbl) st in
  StronglySorted Z.lt ids /\ (length ids <= 50)%nat /\
  Forall (fun i => last_processed_id st < i)%Z ids.
Proof.
  set (S := order_by_id_asc
              (filter (fun r => Z.ltb (last_processed_id st) (id r)) (trows tbl))).
  assert (HS : StronglySorted Z.lt (map id S)).
  { apply strongly_sorted_ids.
    - apply Sorted_StronglySorted; [intros x y z; unfold id_le; lia|].
      apply sorted_order_by_id_asc.
    - apply (Permutation_NoDup (l := map id (filter (fun r => Z.ltb (last_processed_id st) (id r))
                                                   (trows tbl)))).
      + apply Permutation_map. symmetry. apply perm_sort_by.
      + rewrite <- filter_map_swap. apply NoDup_filter. exact Hnd. }
  assert (HL : StronglySorted Z.lt (map id (firstn 50 S)) /\
               (length (map id (firstn 50 S)) <= 50)%nat /\
               Forall (fun i => last_processed_id st < i)%Z (map id (firstn 50 S))).
  { split; [|split].
    - rewrite <- firstn_map. apply (strongly_sorted_app_l _ _ (skipn 50 (map id S))).
      rewrite firstn_skipn. exact HS.
    - rewrite length_map, length_firstn. lia.
    - apply Forall_forall. intros z Hz. apply in_map_iff in Hz. destruct Hz as [r [<- Hr]].
      apply ConnectorFacts.in_firstn, ConnectorFacts.in_sort_by, filter_In in Hr. destruct Hr as [_ Hr].
      apply Z.ltb_lt. exact Hr. }
  cbn [poll_once]. fold S.
  destruct (firstn 50 S) as [|r0 rs] eqn:Er.
  - repeat constructor.
  - pose proof (process_rows_prefix api parse_text tbl st (r0 :: rs)) as Hp.
    destruct (process_rows api parse_text tbl st (r0 :: rs)) as [[[ids st'] t'] err].
    destruct Hp as [suf Hsuf]. rewrite Hsuf in HL. destruct HL as [H1 [H2 H3]].
    split; [|split].
    + exact (strongly_sorted_app_l _ _ _ H1).
    + rewrite length_app in H2. lia.
    + apply Forall_app in H3. exact (proj1 H3).
Qed.

Lemma poll_once_batch_witness :
  let '(ids, _) := poll_once api_warning parse_text0 (Some shuffled_backlog) cold_state in
  StronglySorted Z.lt ids /\ (length ids <= 50)%nat /\
  Forall (fun i => last_processed_id cold_state < i)%Z ids.
Proof.
  apply poll_once_batch.
  replace (map id (trows shuffled_backlog)) with (rev (map Z.of_nat (seq 1 60)))
    by (vm_compute; reflexivity).
  apply NoDup_rev. apply ConnectorFacts.nodup_ids_seq.
Defined.

(** ** Drift and fit on a linear trend *)

Lemma qlen_map {A} (F : A -> Q) (l : list A) : qlen (map F l) = inject_Z (Z.of_nat (length l)).
Proof. unfold qlen. rewrite length_map. reflexivity. Qed.

Lemma qsum_map_ext {A} (F G : A -> Q) (l : list A) :
  Forall (fun p => F p == G p) l -> qsum (map F l) == qsum (map G l).
Proof.
  induction 1 as [|x l Hx _ IH]; [reflexivity|].
  cbn [map qsum fold_right]. fold (qsum (map F l)) (qsum (map G l)). rewrite Hx, IH. reflexivity.
Qed.

Lemma qsum_map_affine {A} (F : A -> Q) (c k : Q) (l : list A) :
  qsum (map (fun p => c + k * F p) l) == inject_Z (Z.of_nat (length l)) * c + k * qsum (map F l).
Proof.
  induction l as [|x l IH]; [cbn; ring|].
  cbn [map qsum fold_right]. fold (qsum (map (fun p => c + k * F p) l)) (qsum (map F l)).
  rewrite IH. cbn [length]. rewrite Nat2Z.inj_succ, <- Z.add_1_r, inject_Z_plus. ring.
Qed.

Lemma combine_map_same {A B C} (f : A -> B) (g : A -> C) (l : list A) :
  combine (map f l) (map g l) = map (fun x => (f x, g x)) l.
Proof. induction l as [|x l IH]; cbn; [reflexivity | rewrite IH; reflexivity]. Qed.

Lemma length_pos_qlen (n : nat) : (1 <= n)%nat -> ~ inject_Z (Z.of_nat n) == 0.
Proof.
  intros Hn Hz. unfold Qeq in Hz. cbn in Hz. lia.
Qed.

(** On a window whose pressures lie on a line [a + b * t] (t in seconds)
    and vary enough to pass the flatline check, the drift is the slope per
    minute, [60 * b], and the fit is perfect, [r2 = 1]. *)
Theorem calculate_features_linear (fe : FeatureEngineer) (a b : Q)
    (Hlen : (5 <= length (history fe))%nat)
    (Hlin : Forall (fun p => snd p == a + b * fst p) (history fe))
    (Hvar : 0.0001 <= np_var (map snd (history fe))) :
  fst (calculate_features fe) == 60 * b /\ snd (calculate_features fe) == 1.
Proof.
  unfold calculate_features. cbv zeta.
  destruct (length (history fe) <? 5)%nat eqn:E; [apply Nat.ltb_lt in E; lia|].
  assert (Hv : Qltb (np_var (map snd (history fe))) 0.0001 = false)
    by (apply Qltb_false; exact Hvar).
  rewrite Hv.
  set (h := history fe) in *.
  set (t0 := hd 0 (map fst h)).
  unfold linregress. cbv zeta. rewrite !map_map, combine_map_same, map_map.
  set (xf := fun x : Q * Q => (fst x - t0) / 60).
  set (c := a + b * t0). set (k := 60 * b).
  assert (Hpt : Forall (fun p => snd p == c + k * xf p) h).
  { apply Forall_impl with (2 := Hlin). intros p Hp. rewrite Hp.
    unfold c, k, xf. field. }
  assert (Hn : ~ inject_Z (Z.of_nat (length h)) == 0) by (apply length_pos_qlen; lia).
  set (xm := np_mean (map xf h)).
  assert (Hym : np_mean (map snd h) == c + k * xm).
  { unfold xm, np_mean. rewrite (qsum_map_ext _ _ _ Hpt), qsum_map_affine, !qlen_map.
    field. exact Hn. }
  set (ym := np_mean (map snd h)) in *.
  set (SX := np_mean (map (fun x => (xf x - xm) * (xf x - xm)) h)).
  assert (Hssy : np_mean (map (fun x => (snd x - ym) * (snd x - ym)) h) == k * k * SX).
  { unfold SX, np_mean. rewrite !qlen_map.
    rewrite (qsum_map_ext _ (fun x => 0 + (k * k) * ((xf x - xm) * (xf x - xm))) h).
    - rewrite qsum_map_affine. field. exact Hn.
    - apply Forall_impl with (2 := Hpt). intros p Hp. rewrite Hp, Hym. ring. }
  assert (Hsxy : np_mean (map (fun x => (xf x - xm) * (snd x - ym)) h) == k * SX).
  { unfold SX, np_mean. rewrite !qlen_map.
    rewrite (qsum_map_ext _ (fun x => 0 + k * ((xf x - xm) * (xf x - xm))) h).
    - rewrite qsum_map_affine. field. exact Hn.
    - apply Forall_impl with (2 := Hpt). intros p Hp. rewrite Hp, Hym. ring. }
  assert (Hy : 0.0001 <= np_mean (map (fun x => (snd x - ym) * (snd x - ym)) h)).
  { unfold np_var in Hvar. cbv zeta in Hvar. rewrite map_map in Hvar. exact Hvar. }
  assert (HSX : ~ SX == 0).
  { intro Hz. assert (E0 : k * k * SX == 0) by (rewrite Hz; ring).
    rewrite Hssy, E0 in Hy. lra. }
  assert (Hk : ~ k == 0).
  { intro Hz. assert (E0 : k * k * SX == 0) by (rewrite Hz; ring).
    rewrite Hssy, E0 in Hy. lra. }
  clearbody ym xm.
  destruct (forallb _ (map xf h)) eqn:Eall.
  - exfalso.
    assert (Hc : Forall (fun y => y == c + k * hd 0 (map xf h)) (map snd h)).
    { apply Forall_map. rewrite forallb_forall in Eall.
      apply Forall_forall. intros p Hin.
      rewrite Forall_forall in Hpt. rewrite (Hpt p Hin).
      pose proof (Eall (xf p) (in_map xf h p Hin)) as Ep. apply Qeq_bool_eq in Ep.
      rewrite Ep. reflexivity. }
    pose proof (ConnectorFacts.np_var_const _ _ Hc) as H0. lra.
  - destruct (Qeq_bool _ 0) eqn:Eq.
    + apply Qeq_bool_eq in Eq. lra.
    + cbn [fst snd].
      change (fun x : Q * Q => ((fst x - t0) / 60 - xm) * (snd x - ym))
        with (fun x : Q * Q => (xf x - xm) * (snd x - ym)).
      change (fun x : Q * Q => ((fst x - t0) / 60 - xm) * ((fst x - t0) / 60 - xm))
        with (fun x : Q * Q => (xf x - xm) * (xf x - xm)).
      change (np_mean (map (fun x : Q * Q => (xf x - xm) * (xf x - xm)) h)) with SX.
      rewrite Hsxy, Hssy. split; field; auto.
Qed.

Lemma calculate_features_linear_witness :
  fst (calculate_features ramp_window) == 60 * (1 # 100) /\
  snd (calculate_features ramp_window) == 1.
Proof.
  apply (calculate_features_linear ramp_window 2 (1 # 100)).
  - vm_compute. lia.
  - vm_compute. repeat constructor.
  - vm_compute. discriminate.
Defined.

(** When all timestamps of a full, non-flat window are equal, [linregress]
    raises and the bare [except] returns the math-error fallback [(0, 0)]. *)
Theorem calculate_features_same_timestamps (fe : FeatureEngineer) (t : Q)
    (Hlen : (5 <= length (history fe))%nat)
    (Ht : Forall (fun p => fst p == t) (history fe))
    (Hvar : 0.0001 <= np_var (map snd (history fe))) :
  calculate_features fe = (0, 0).
Proof.
  unfold calculate_features. cbv zeta.
  destruct (length (history fe) <? 5)%nat eqn:E; [apply Nat.ltb_lt in E; lia|].
  assert (Hv : Qltb (np_var (map snd (history fe))) 0.0001 = false)
    by (apply Qltb_false; exact Hvar).
  rewrite Hv.
  destruct (history fe) as [|p0 h] eqn:Eh; [cbn in Hlen; lia|].
  unfold linregress. cbv zeta.
  assert (Hall : forallb (fun xi => Qeq_bool xi (hd 0 (map (fun ti => (ti - hd 0 (map fst (p0 :: h))) / 60)
                                                        (map fst (p0 :: h)))))
                   (map (fun ti => (ti - hd 0 (map fst (p0 :: h))) / 60) (map fst (p0 :: h))) = true).
  { apply forallb_forall. intros x Hx. apply Qeq_bool_iff.
    rewrite map_map in Hx. apply in_map_iff in Hx. destruct Hx as [p [<- Hp]].
    rewrite Forall_forall in Ht. cbn [map hd].
    rewrite (Ht p Hp), (Ht p0 (or_introl eq_refl)). reflexivity. }
  rewrite Hall. reflexivity.
Qed.

Lemma calculate_features_same_timestamps_witness : calculate_features stalled_clock_window = (0, 0).
Proof.
  apply (calculate_features_same_timestamps stalled_clock_window 100).
  - vm_compute. lia.
  - vm_compute. repeat constructor.
  - vm_compute. discriminate.
Defined.

(** ** What the writes leave alone *)

Lemma assoc_get_set_other (c k : string) (v : SqlValue) (e : list (string * SqlValue)) :
  c <> k -> assoc_get c (assoc_set k v e) = assoc_get c e.
Proof.
  intro Hne. unfold assoc_set. cbn [assoc_get].
  apply String.eqb_neq in Hne. rewrite Hne.
  induction e as [|[k' v'] e IH]; [reflexivity|].
  cbn [filter]. destruct (String.eqb k k') eqn:Ek; cbn [negb].
  - apply String.eqb_eq in Ek. subst k'. cbn [assoc_get]. rewrite Hne. exact IH.
  - cbn [assoc_get]. destruct (String.eqb c k'); [reflexivity | exact IH].
Qed.

Lemma assoc_get_fold_other (c : string) (sets e : list (string * SqlValue)) :
  (forall v, ~ In (c, v) sets) ->
  assoc_get c (fold_right (fun '(c', v) e => assoc_set c' v e) e sets) = assoc_get c e.
Proof.
  induction sets as [|[k v] sets IH]; intro Hn; [reflexivity|].
  cbn [fold_right]. rewrite assoc_get_set_other.
  - apply IH. intros v' Hin. apply (Hn v'). right; exact Hin.
  - intros ->. apply (Hn v). left; reflexivity.
Qed.

Lemma cell_sql_update_other (tbl t : Table) (sets : list (string * SqlValue)) (i j : Z) (c : string) :
  sql_update tbl sets i = Ret t -> (forall v, ~ In (c, v) sets) -> cell t j c = cell tbl j c.
Proof.
  unfold sql_update.
  destruct (find (fun '(c, _) => negb (py_in c (columns tbl))) sets) as [[c' v']|];
    intro H; inversion H; subst; clear H.
  intro Hn. cell_maps.
  destruct (find (fun r => Z.eqb (id r) j) (trows tbl)) as [r|]; [|reflexivity].
  cbn [option_map]. destruct (Z.eqb (id r) i); [|reflexivity].
  cbn [with_extra extra]. apply assoc_get_fold_other. exact Hn.
Qed.

Lemma cell_sql_add_column_other (tbl t : Table) (c' : string) (d : SqlValue) (j : Z) (c : string) :
  sql_add_column tbl c' d = Ret t -> c <> c' -> cell t j c = cell tbl j c.
Proof.
  unfold sql_add_column. destruct (py_in c' (columns tbl));
    intro H; inversion H; subst; clear H.
  intro Hne. cell_maps.
  destruct (find (fun r => Z.eqb (id r) j) (trows tbl)) as [r|]; [|reflexivity].
  cbn [option_map with_extra extra]. apply assoc_get_set_other. exact Hne.
Qed.

(** The feature write touches no column but its own two. *)
Lemma feature_write_other (tbl t : Table) (drift r2 : Q) (i j : Z) (c : string) :
  feature_write tbl drift r2 i = Ret t ->
  c <> "drift_velocity" -> c <> "confidence_r2" -> cell t j c = cell tbl j c.
Proof.
  intros H H1 H2.
  assert (Hn : forall v, ~ In (c, v) (feature_sets drift r2)).
  { intros v [Hv | [Hv | []]]; inversion Hv; subst; contradiction. }
  unfold feature_write in H.
  destruct (sql_update tbl (feature_sets drift r2) i) as [t0|[kind msg]] eqn:Eu.
  - inversion H; subst. exact (cell_sql_update_other _ _ _ _ _ _ Eu Hn).
  - destruct (String.eqb kind "OperationalError"); [|discriminate].
    destruct (str_contains "no such column" msg); [|inversion H; reflexivity].
    destruct (sql_add_column tbl "drift_velocity" (SqlReal 0)) as [t1|] eqn:E1; [|discriminate].
    cbn in H.
    destruct (sql_add_column t1 "confidence_r2" (SqlReal 0)) as [t2|] eqn:E2; [|discriminate].
    cbn in H.
    rewrite (cell_sql_update_other _ _ _ _ _ _ H Hn).
    rewrite (cell_sql_add_column_other _ _ _ _ _ _ E2 H2).
    exact (cell_sql_add_column_other _ _ _ _ _ _ E1 H1).
Qed.

(** Without a 200 answer from the API no verdict is written: over a whole
    batch the [ai_status] and [ai_risk_score] of every row stay what they
    were, while the cursor still moves past those rows. *)
Theorem no_verdict_without_api (api : Api) (parse_text : string -> Q) (tbl : Table)
    (st : ConnState) (rows : list TelemetryRow)
    (Hapi : forall p, match api p with Ret (code, _) => code <> 200%Z | Raise _ => True end) :
  let '(_, _, tbl', _) := process_rows api parse_text tbl st rows in
  forall j, cell tbl' j "ai_status" = cell tbl j "ai_status" /\
            cell tbl' j "ai_risk_score" = cell tbl j "ai_risk_score".
Proof.
  revert tbl st. induction rows as [|a rest IH]; intros tbl st.
  - intro j. split; reflexivity.
  - cbn [process_rows]. destruct (calculate_features _) as [d r].
    destruct (feature_write tbl d r (id a)) as [t1|e] eqn:Ef.
    + match goal with |- context [api ?P] =>
        pose proof (Hapi P) as Hp; destruct (api P) as [[code result]|e] end.
      * apply Z.eqb_neq in Hp. rewrite Hp.
        match goal with |- context [process_rows api parse_text t1 ?S rest] =>
          specialize (IH t1 S); destruct (process_rows api parse_text t1 S rest)
            as [[[ids st''] tbl'] err]
        end.
        intro j. destruct (IH j) as [-> ->].
        split; apply (feature_write_other _ _ _ _ _ _ _ Ef); discriminate.
      * match goal with |- context [process_rows api parse_text t1 ?S rest] =>
          specialize (IH t1 S); destruct (process_rows api parse_text t1 S rest)
            as [[[ids st''] tbl'] err]
        end.
        intro j. destruct (IH j) as [-> ->].
        split; apply (feature_write_other _ _ _ _ _ _ _ Ef); discriminate.
    + intro j. split; reflexivity.
Qed.

Lemma no_verdict_without_api_witness :
  let '(_, _, tbl', _) :=
    process_rows api_down parse_text0 healed_table cold_state (trows healed_table) in
  forall j, cell tbl' j "ai_status" = cell healed_table j "ai_status" /\
            cell tbl' j "ai_risk_score" = cell healed_table j "ai_risk_score".
Proof.
  apply no_verdict_without_api. intro p. exact I.
Defined.

End ConnectorExtras.
